(** * dhtxx: the DHT11 / DHT22 driver of esp8266_dhtxx

    A shallow embedding of [dhtxx.c] ([scale_humidity], [scale_temperature],
    the blocking [dht_read] and [dht_float2String]) together with the
    properties of its decoder and of its interpretation of the five frame
    bytes.

    - C [int] values are [Z]; the loop counters stay far below [2^31]
      (see [read_data_bounds]), the one place where a stale stack word can
      be shifted out of range, [data[j/8] <<= 1], wraps explicitly.
    - C [float] is IEEE-754 binary32 and [double] binary64, both through
      the executable [SpecFloat] operations of the standard library.
    - The GPIO line is a stream of levels: the call of [GPIO_INPUT_GET]
      after [n] earlier ones returns [line n].  Delays, pin writes and the
      [os_printf] lines are recorded in the [world]. *)

From Stdlib Require Import ZArith Bool Lia SpecFloat.
From Stdlib Require DecimalString.
From stdpp Require Import base tactics option list strings.

Local Open Scope Z_scope.

(** ** Constants of the driver *)

Definition DHT_MAXTIMINGS : Z := 10000.
Definition DHT_BREAKTIME : Z := 20.
Definition DHT_MAXCOUNT : Z := 32000.

(** Per-transition stall cap (the literal [1000] of the inner loop) and the
    length of [int data[100]]. *)
Definition STALL : Z := 1000.
Definition DATA_LEN : Z := 100.

(** ** Types of [dhtxx.h] *)

Inductive DHTType := DHT11 | DHT22.

Definition DHTType_eqb (a b : DHTType) : bool :=
  match a, b with
  | DHT11, DHT11 | DHT22, DHT22 => true
  | _, _ => false
  end.

Record DHT_Sensor_Output := mkOutput {
  temperature : spec_float;
  humidity : spec_float
}.

Record DHT_Sensor := mkSensor {
  pin : Z;
  type : DHTType
}.

(** ** Machine arithmetic *)

(** Two's-complement 32-bit [int]. *)
Definition wrap32 (x : Z) : Z := (x + 2 ^ 31) mod 2 ^ 32 - 2 ^ 31.

(** binary32, the C [float]. *)
Module F32.
Definition prec : Z := 24.
Definition emax : Z := 128.
Definition of_int (n : Z) : spec_float := binary_normalize prec emax n 0 false.
Definition mul : spec_float -> spec_float -> spec_float := SFmul prec emax.
Definition add : spec_float -> spec_float -> spec_float := SFadd prec emax.
Definition div : spec_float -> spec_float -> spec_float := SFdiv prec emax.
(** [(float) d] for a [double] [d]: round to nearest even. *)
Definition of_double (d : spec_float) : spec_float :=
  match d with
  | S754_finite s m e => binary_round prec emax s m e
  | _ => d
  end.
(** [(int) x]: truncation towards zero (undefined in C outside the range
    of [int] and on infinities and NaN, where this returns [0]). *)
Definition to_int (x : spec_float) : Z :=
  match x with
  | S754_finite s m e =>
      cond_Zopp s (if 0 <=? e then Z.pos m * 2 ^ e else Z.pos m / 2 ^ (- e))
  | _ => 0
  end.
End F32.

(** binary64, the C [double]. *)
Module F64.
Definition prec : Z := 53.
Definition emax : Z := 1024.
Definition of_int (n : Z) : spec_float := binary_normalize prec emax n 0 false.
Definition mul : spec_float -> spec_float -> spec_float := SFmul prec emax.
Definition div : spec_float -> spec_float -> spec_float := SFdiv prec emax.
(** The promotion of a [float] operand: exact, renormalised to 53 bits. *)
Definition of_float (x : spec_float) : spec_float :=
  match x with
  | S754_finite s m e => binary_round prec emax s m e
  | _ => x
  end.
End F64.

(** Structural equality test on floats (distinguishes [+0] and [-0]). *)
Definition SF_same (x y : spec_float) : bool :=
  match x, y with
  | S754_zero s, S754_zero s' => Bool.eqb s s'
  | S754_infinity s, S754_infinity s' => Bool.eqb s s'
  | S754_nan, S754_nan => true
  | S754_finite s m e, S754_finite s' m' e' =>
      Bool.eqb s s' && (m =? m')%positive && (e =? e')
  | _, _ => false
  end.

(** [x] is the integer [n], exactly. *)
Definition SF_is_int (x : spec_float) (n : Z) : bool :=
  match x with
  | S754_zero _ => n =? 0
  | S754_finite s m e =>
      if 0 <=? e then cond_Zopp s (Z.pos m * 2 ^ e) =? n
      else cond_Zopp s (Z.pos m) =? n * 2 ^ (- e)
  | _ => false
  end.

(** [x] is within half a unit in the last place of [n / 10]: for
    [x = +-m * 2^e], [|x - n/10| <= 2^e / 2], that is
    [|10 * (+-m) - n * 2^(-e)| <= 5]. *)
Definition SF_near_tenth (x : spec_float) (n : Z) : bool :=
  match x with
  | S754_zero _ => n =? 0
  | S754_finite s m e =>
      (e <=? 0) && (Z.abs (10 * cond_Zopp s (Z.pos m) - n * 2 ^ (- e)) <=? 5)
  | _ => false
  end.

(** ** The array [data] *)

Inductive fault :=
| OutOfFuel
| OutOfBounds (index : Z).

Inductive result (A : Type) :=
| Ok (a : A)
| Fault (f : fault).
Arguments Ok {A} a.
Arguments Fault {A} f.

Definition rbind {A B} (r : result A) (k : A -> result B) : result B :=
  match r with
  | Ok a => k a
  | Fault f => Fault f
  end.

Notation "'let*' x := r 'in' k" := (rbind r (fun x => k))
  (at level 10, x name, r at level 200, k at level 200, only parsing).
Notation "'let*' ' p := r 'in' k" := (rbind r (fun x => let 'p := x in k))
  (at level 10, p strict pattern, r at level 200, k at level 200, only parsing).

(** [data[k] = f (data[k])]; an access outside [data] is undefined
    behaviour in C and a [Fault] here. *)
Definition update_at (data : list Z) (k : Z) (f : Z -> Z) : result (list Z) :=
  if k <? 0 then Fault (OutOfBounds k)
  else match data !! Z.to_nat k with
       | Some v => Ok (<[Z.to_nat k := f v]> data)
       | None => Fault (OutOfBounds k)
       end.

(** [int data[100]; data[0] = ... = data[4] = 0;] the other 95 words keep
    whatever the stack held, [junk k] at index [k]. *)
Definition initial_data (junk : Z -> Z) : list Z :=
  map (fun k => if k <? 5 then 0 else junk k) (seqZ 0 DATA_LEN).

(** ** Scaling (lines 35-56) *)

Definition byte_at (data : list Z) (k : nat) : Z := default 0 (data !! k).

(** [x / 10.0] stored in a [float]: the operand is promoted, the division
    is done in [double], the result is rounded back. *)
Definition div_10 (x : spec_float) : spec_float :=
  F32.of_double (F64.div (F64.of_float x) (F64.of_int 10)).

(** [x * -1.0] stored in a [float], through [double] likewise. *)
Definition times_minus_1 (x : spec_float) : spec_float :=
  F32.of_double (F64.mul (F64.of_float x) (F64.of_int (-1))).

Definition scale_humidity (sensor_type : DHTType) (data : list Z) : spec_float :=
  if DHTType_eqb sensor_type DHT11 then
    F32.of_int (byte_at data 0)
  else
    let humidity := F32.of_int (byte_at data 0 * 256 + byte_at data 1) in
    div_10 humidity.

Definition scale_temperature (sensor_type : DHTType) (data : list Z) : spec_float :=
  if DHTType_eqb sensor_type DHT11 then
    F32.of_int (byte_at data 2)
  else
    let temperature := F32.of_int (Z.land (byte_at data 2) 0x7f) in
    let temperature := F32.mul temperature (F32.of_int 256) in
    let temperature := F32.add temperature (F32.of_int (byte_at data 3)) in
    let temperature := div_10 temperature in
    if negb (Z.land (byte_at data 2) 0x80 =? 0) then
      times_minus_1 temperature
    else temperature.

(** ** The outside world *)

Inductive gpio_op :=
| OutputSet (pin level : Z)
| DisOutput (pin : Z).

(** One constructor per [os_printf] of [dht_read], with its arguments. *)
Inductive message :=
| msg_timeout (pin : Z)
| msg_frame (type : DHTType) (d0 d1 d2 d3 d4 checksum pin : Z)
| msg_reading (temperature100 humidity100 pin : Z)
| msg_checksum (j expected got pin : Z)
| msg_too_few (j pin : Z).

Record world := mkWorld {
  polls : N;                        (* calls of GPIO_INPUT_GET so far *)
  elapsed_us : Z;                   (* microseconds spent in os_delay_us *)
  gpio_trace : list (Z * gpio_op);  (* pin writes, newest first, with their time *)
  console : list message            (* os_printf lines, newest first *)
}.

Definition power_on : world := mkWorld 0 0 [] [].

Definition os_delay_us (us : Z) (w : world) : world :=
  mkWorld (polls w) (elapsed_us w + us) (gpio_trace w) (console w).

Definition sleepms (x : Z) (w : world) : world := os_delay_us (x * 1000) w.

Definition GPIO_OUTPUT_SET (pin level : Z) (w : world) : world :=
  mkWorld (polls w) (elapsed_us w)
          ((elapsed_us w, OutputSet pin level) :: gpio_trace w) (console w).

Definition GPIO_DIS_OUTPUT (pin : Z) (w : world) : world :=
  mkWorld (polls w) (elapsed_us w)
          ((elapsed_us w, DisOutput pin) :: gpio_trace w) (console w).

Definition os_printf (m : message) (w : world) : world :=
  mkWorld (polls w) (elapsed_us w) (gpio_trace w) (m :: console w).

(** The locals of [dht_read] that are live after the capture loop. *)
Record capture := mkCapture {
  cap_i : Z;
  cap_j : Z;
  cap_counter : Z;
  cap_laststate : Z;
  cap_data : list Z
}.

(** [data[k]] at the end of the capture. *)
Definition raw (c : capture) (k : nat) : Z := byte_at (cap_data c) k.

(** The test of line 110: [(i > 3) && (i % 2 == 0)]. *)
Definition stores_bit (i : Z) : bool := (3 <? i) && (Z.rem i 2 =? 0).

(** Lines 112-115: shove one bit into the storage bytes. *)
Definition shove_bit (counter j : Z) (data : list Z) : result (Z * list Z) :=
  let* data := update_at data (Z.quot j 8) (fun v => wrap32 (Z.shiftl v 1)) in
  let* data :=
    if DHT_BREAKTIME <? counter
    then update_at data (Z.quot j 8) (fun v => Z.lor v 1)
    else Ok data in
  Ok (j + 1, data).

Section Driver.

(** The levels the successive reads of the pin return. *)
Variable line : N -> bool.

Definition GPIO_INPUT_GET (pin : Z) (w : world) : Z * world :=
  (if line (polls w) then 1 else 0,
   mkWorld (N.succ (polls w)) (elapsed_us w) (gpio_trace w) (console w)).

(** Lines 73-83: the wake-up sequence. *)
Definition handshake (pin : Z) (w : world) : world :=
  let w := GPIO_OUTPUT_SET pin 1 w in
  let w := sleepms 250 w in
  let w := GPIO_OUTPUT_SET pin 0 w in
  let w := sleepms 20 w in
  let w := GPIO_OUTPUT_SET pin 1 w in
  let w := os_delay_us 40 w in
  GPIO_DIS_OUTPUT pin w.

(** Lines 86-89: [while (GPIO_INPUT_GET(pin) && i < DHT_MAXCOUNT)].
    The pin is read before [i] is compared. *)
Fixpoint wait_for_drop (fuel : nat) (pin i : Z) (w : world) : result (Z * world) :=
  match fuel with
  | O => Fault OutOfFuel
  | S fuel =>
      let '(level, w) := GPIO_INPUT_GET pin w in
      if negb (level =? 0) && (i <? DHT_MAXCOUNT) then
        let w := os_delay_us 1 w in
        wait_for_drop fuel pin (i + 1) w
      else Ok (i, w)
  end.

(** Lines 100-105: count the polls for which the pin keeps [laststate]. *)
Fixpoint count_high_time (fuel : nat) (pin laststate counter : Z) (w : world)
  : result (Z * world) :=
  match fuel with
  | O => Fault OutOfFuel
  | S fuel =>
      let '(level, w) := GPIO_INPUT_GET pin w in
      if level =? laststate then
        let counter := counter + 1 in
        let w := os_delay_us 1 w in
        if counter =? STALL then Ok (counter, w)
        else count_high_time fuel pin laststate counter w
      else Ok (counter, w)
  end.

(** Lines 99-106: one measurement, the counter and the new [laststate]. *)
Definition measure (pin laststate : Z) (w : world) : result (Z * Z * world) :=
  let* '(counter, w) := count_high_time (Z.to_nat STALL) pin laststate 0 w in
  let '(laststate, w) := GPIO_INPUT_GET pin w in
  Ok (counter, laststate, w).

(** Lines 97-117: [for (i = 0; i < DHT_MAXTIMINGS; i++)]. *)
Fixpoint read_data (fuel : nat) (pin i j counter laststate : Z) (data : list Z)
    (w : world) : result (capture * world) :=
  match fuel with
  | O => Fault OutOfFuel
  | S fuel =>
      if i <? DHT_MAXTIMINGS then
        let* '(counter, laststate, w) := measure pin laststate w in
        if counter =? STALL then
          Ok (mkCapture i j counter laststate data, w)
        else if stores_bit i then
          let* '(j, data) := shove_bit counter j data in
          read_data fuel pin (i + 1) j counter laststate data w
        else
          read_data fuel pin (i + 1) j counter laststate data w
      else Ok (mkCapture i j counter laststate data, w)
  end.

(** Lines 119-139: checksum, scaling and the report. *)
Definition conclude (sensor : DHT_Sensor) (output : DHT_Sensor_Output)
    (j : Z) (data : list Z) (w : world) : bool * DHT_Sensor_Output * world :=
  if 39 <=? j then
    let checksum :=
      Z.land (byte_at data 0 + byte_at data 1 + byte_at data 2 + byte_at data 3) 0xFF in
    let w := os_printf (msg_frame (type sensor) (byte_at data 0) (byte_at data 1)
                          (byte_at data 2) (byte_at data 3) (byte_at data 4)
                          checksum (pin sensor)) w in
    if byte_at data 4 =? checksum then
      let output := mkOutput (scale_temperature (type sensor) data) (humidity output) in
      let output := mkOutput (temperature output) (scale_humidity (type sensor) data) in
      let w := os_printf (msg_reading
                 (F32.to_int (F32.mul (temperature output) (F32.of_int 100)))
                 (F32.to_int (F32.mul (humidity output) (F32.of_int 100)))
                 (pin sensor)) w in
      (true, output, w)
    else
      let w := os_printf (msg_checksum j (byte_at data 4) checksum (pin sensor)) w in
      (false, output, w)
  else
    let w := os_printf (msg_too_few j (pin sensor)) w in
    (false, output, w).

(** Lines 96-139: the capture and its interpretation. *)
Definition sample (sensor : DHT_Sensor) (output : DHT_Sensor_Output)
    (junk : Z -> Z) (w : world) : result (bool * DHT_Sensor_Output * world) :=
  let* '(c, w) :=
    read_data (S (Z.to_nat DHT_MAXTIMINGS)) (pin sensor) 0 0 0 1 (initial_data junk) w in
  Ok (conclude sensor output (cap_j c) (cap_data c) w).

(** [dht_read]: [output] is the structure the caller passes, [junk] the
    stale stack under [data], [w] the world at the call.  The result is
    the returned flag, the structure afterwards and the world. *)
Definition dht_read (sensor : DHT_Sensor) (output : DHT_Sensor_Output)
    (junk : Z -> Z) (w : world) : result (bool * DHT_Sensor_Output * world) :=
  let w := handshake (pin sensor) w in
  let* '(i, w) := wait_for_drop (S (Z.to_nat DHT_MAXCOUNT)) (pin sensor) 0 w in
  if i =? DHT_MAXCOUNT then
    let w := os_printf (msg_timeout (pin sensor)) w in
    Ok (false, output, w)
  else
    sample sensor output junk w.

End Driver.

(** ** The capture seen as a list of pulse widths *)

Section Trace.

Variable line : N -> bool.

(** The counters the successive measurements of [read_data] produce, up
    to the first stalled one, for at most [n] transitions. *)
Fixpoint pulse_widths (n : nat) (pin laststate : Z) (w : world) : list Z :=
  match n with
  | O => []
  | S n =>
      match measure line pin laststate w with
      | Ok (counter, laststate, w) =>
          if counter =? STALL then []
          else counter :: pulse_widths n pin laststate w
      | Fault _ => []
      end
  end.

(** The read passes the wait loop and the capture loop ends with the
    locals [c], in the world [w2]. *)
Definition captures (sensor : DHT_Sensor) (junk : Z -> Z) (w : world)
    (c : capture) (w2 : world) : Prop :=
  exists i w1,
    wait_for_drop line (S (Z.to_nat DHT_MAXCOUNT)) (pin sensor) 0
                  (handshake (pin sensor) w) = Ok (i, w1)
    /\ i <> DHT_MAXCOUNT
    /\ read_data line (S (Z.to_nat DHT_MAXTIMINGS)) (pin sensor) 0 0 0 1
                 (initial_data junk) w1 = Ok (c, w2).

End Trace.

(** The widths at the capture indices that store a bit, in order; [i] is
    the index of the head of [cs]. *)
Fixpoint data_pulses (i : Z) (cs : list Z) : list Z :=
  match cs with
  | [] => []
  | c :: cs =>
      if stores_bit i then c :: data_pulses (i + 1) cs
      else data_pulses (i + 1) cs
  end.

(** The bit a width decodes to. *)
Definition bit_of (counter : Z) : bool := DHT_BREAKTIME <? counter.

(** [shove_bit] over a list of widths. *)
Fixpoint shove_all (cs : list Z) (j : Z) (data : list Z) : result (Z * list Z) :=
  match cs with
  | [] => Ok (j, data)
  | c :: cs => let* '(j, data) := shove_bit c j data in shove_all cs j data
  end.

(** The number a list of bits spells, first bit most significant. *)
Definition msb_first (bits : list bool) : Z :=
  fold_left (fun acc (b : bool) => 2 * acc + Z.b2z b) bits 0.

(** The [k]-th group of eight bits. *)
Definition octet (k : nat) (bits : list bool) : list bool :=
  take 8 (drop (8 * k) bits).

(** [n / 10] as a binary32 value: the correctly rounded quotient. *)
Definition tenths (n : Z) : spec_float := F32.div (F32.of_int n) (F32.of_int 10).

(** The world after [n] rounds of "read the pin, wait one microsecond". *)
Definition tick (n : N) (w : world) : world :=
  mkWorld (polls w + n) (elapsed_us w + Z.of_N n) (gpio_trace w) (console w).

(** ** Simulated lines *)

(** The sensor's answer to the handshake, poll by poll: ten polls low,
    ten polls high, then one slot of fifty polls per bit, low and then
    high for 12 polls (bit 0) or 32 polls (bit 1), a closing low of ten
    polls, and high ever after.  [frame] holds the [nbits] bits, the first
    one sent being the most significant. *)
Definition line_of_frame (nbits frame : N) (n : N) : bool :=
  (if n <? 10 then false
   else if n <? 20 then true
   else
     let slot := (n - 20) / 50 in
     let phase := (n - 20) mod 50 in
     if slot <? nbits then
       50 - (if N.testbit frame (nbits - 1 - slot) then 32 else 12) <=? phase
     else 20 + 50 * nbits + 10 <=? n)%N.

(** The frame 02 1A 01 05 with its checksum 22: 53.8 %RH, 26.1 C. *)
Definition line_good : N -> bool := line_of_frame 40 0x021A010522.

(** The frame 01 90 80 0A with checksum 1B: sign bit set, -1.0 C. *)
Definition line_negative : N -> bool := line_of_frame 40 0x0190800A1B.

(** A frame whose last byte is not the sum of the others. *)
Definition line_corrupt : N -> bool := line_of_frame 40 0x021A010523.

(** The DHT11 frame 28 00 18 00 40: 40 %RH, 24 C. *)
Definition line_dht11 : N -> bool := line_of_frame 40 0x2800180040.

(** A transmission that stops after 39 bits: the bytes 28 00 18 00 and the
    seven bits 1000000. *)
Definition line_39_bits : N -> bool := line_of_frame 39 (0x28001800 * 128 + 64).

(** A transmission that stops after 16 bits. *)
Definition line_16_bits : N -> bool := line_of_frame 16 0x021A.

(** A line that changes level every other poll and never rests. *)
Definition line_square (n : N) : bool := N.odd ((n - 1) / 2).

Definition line_stuck_high : N -> bool := fun _ => true.
Definition line_stuck_low : N -> bool := fun _ => false.

Definition no_reading : DHT_Sensor_Output := mkOutput S754_nan S754_nan.
Definition stale (k : Z) : Z := 0x5a5a5a5a + k.

(** The bits a capture from the world [w] decodes. *)
Definition decoded_bits (line : N -> bool) (pin : Z) (w : world) : list bool :=
  bit_of <$> data_pulses 0 (pulse_widths line (Z.to_nat DHT_MAXTIMINGS) pin 1 w).

(** The first five bytes spell the bits received so far. *)
Definition packed (bits : list bool) (data : list Z) : Prop :=
  forall k, (k < 5)%nat -> data !! k = Some (msb_first (octet k bits)).

(** Distance from capture index [i] to the next index that stores a bit. *)
Definition next_stored (i : Z) : nat :=
  if i <=? 4 then Z.to_nat (4 - i) else Z.to_nat (Z.rem i 2).

(** The world after [k] rounds of the wait loop and the read that ends it. *)
Definition after_wait (k : N) (w : world) : world :=
  mkWorld (N.succ (polls w + k)) (elapsed_us w + Z.of_N k) (gpio_trace w) (console w).

(** ** Checks over all byte values *)

(** The checks below run over every value the bytes can take. *)
Definition all_below (n : Z) (f : Z -> bool) : bool := forallb f (seqZ 0 n).

(** The same over [0 <= n < hi * 256], by high and low byte. *)
Definition all_words (hi : Z) (f : Z -> bool) : bool :=
  all_below hi (fun a => all_below 256 (fun b => f (a * 256 + b))).

(** [x / 10.0] on the integers of sixteen bits is the correctly rounded
    binary32 quotient, rounding to [double] first does no harm, and it
    lies within half a unit in the last place of [n / 10]. *)
Definition div_10_ok (n : Z) : bool :=
  let x := div_10 (F32.of_int n) in
  SF_same x (tenths n) && SF_near_tenth x n.

(** [hi * 256 + lo] is exact in binary32. *)
Definition magnitude_ok (hi lo : Z) : bool :=
  SF_same (F32.add (F32.mul (F32.of_int hi) (F32.of_int 256)) (F32.of_int lo))
          (F32.of_int (hi * 256 + lo)).

(** [x * -1.0] flips the sign and nothing else. *)
Definition times_minus_1_ok (n : Z) : bool :=
  SF_same (times_minus_1 (tenths n)) (SFopp (tenths n)).

Definition int_exact_ok (a : Z) : bool := SF_is_int (F32.of_int a) a.

(** ** Two sensors on GPIO 2 *)

Definition dht22_on_2 : DHT_Sensor := mkSensor 2 DHT22.
Definition dht11_on_2 : DHT_Sensor := mkSensor 2 DHT11.

(** ** Further definitions: frames of the array and bounds of a call *)

(** Two states of [data] of the same length that agree on the five bytes
    of the frame. *)
Definition same_frame (d1 d2 : list Z) : Prop :=
  length d1 = length d2 /\ forall k, (k < 5)%nat -> d1 !! k = d2 !! k.

(** Two outcomes of the capture loop that differ at most in the words of
    [data] behind the frame. *)
Definition same_capture (r1 r2 : result (capture * world)) : Prop :=
  match r1, r2 with
  | Ok (c1, w1), Ok (c2, w2) =>
      cap_i c1 = cap_i c2 /\ cap_j c1 = cap_j c2
      /\ cap_counter c1 = cap_counter c2 /\ cap_laststate c1 = cap_laststate c2
      /\ same_frame (cap_data c1) (cap_data c2) /\ w1 = w2
  | Fault e1, Fault e2 => e1 = e2
  | _, _ => False
  end.

(** The pin operations of the handshake, newest first, for a call that
    starts [t] microseconds into the trace. *)
Definition handshake_trace (pin t : Z) : list (Z * gpio_op) :=
  [(t + 270040, DisOutput pin); (t + 270000, OutputSet pin 1);
   (t + 250000, OutputSet pin 0); (t, OutputSet pin 1)].

(** The longest a call can busy-wait, in microseconds: the handshake, the
    wait loop and [DHT_MAXTIMINGS] measurements of at most [STALL] polls. *)
Definition MAX_BLOCKING_US : Z := 270040 + DHT_MAXCOUNT + DHT_MAXTIMINGS * STALL.

(** The most reads of the pin a call can make. *)
Definition MAX_POLLS : Z := DHT_MAXCOUNT + 1 + DHT_MAXTIMINGS * (STALL + 2).

(** ** Further definitions: pulse trains *)

(** From poll [p] on the line keeps the level [lvl] for [c] polls and then
    shows the other level at the next two polls. *)
Definition pulse (line : N -> bool) (p : N) (lvl : bool) (c : N) : Prop :=
  (forall k, (k < c)%N -> line (p + k)%N = lvl)
  /\ line (p + c)%N = negb lvl /\ line (p + c + 1)%N = negb lvl.

(** From poll [p] on the line rests at [lvl] for 1000 polls. *)
Definition rests (line : N -> bool) (p : N) (lvl : bool) : Prop :=
  forall k, (k < 1000)%N -> line (p + k)%N = lvl.

(** From poll [p] on the line shows pulses of the widths [cs], of
    alternating levels starting with [lvl], and then rests. *)
Fixpoint train (line : N -> bool) (p : N) (lvl : bool) (cs : list N) : Prop :=
  match cs with
  | [] => rests line p lvl
  | c :: cs =>
      (c < 1000)%N /\ pulse line p lvl c /\ train line (p + c + 2)%N (negb lvl) cs
  end.

(** The same as a test, to run on a simulated line. *)
Definition holds (line : N -> bool) (p : N) (lvl : bool) (c : N) : bool :=
  forallb (fun k => Bool.eqb (line (p + Z.to_N k)%N) lvl) (seqZ 0 (Z.of_N c)).

Fixpoint trainb (line : N -> bool) (p : N) (lvl : bool) (cs : list N) : bool :=
  match cs with
  | [] => holds line p lvl 1000
  | c :: cs =>
      (c <? 1000)%N && holds line p lvl c
      && Bool.eqb (line (p + c)%N) (negb lvl)
      && Bool.eqb (line (p + c + 1)%N) (negb lvl)
      && trainb line (p + c + 2)%N (negb lvl) cs
  end.

(** The world after a measurement that counted [c] polls and read the pin
    twice more. *)
Definition after_measure (c : N) (w : world) : world :=
  mkWorld (polls w + c + 2) (elapsed_us w + Z.of_N c) (gpio_trace w) (console w).

(** The eight bits of a byte, most significant first, and the bits of a
    list of bytes. *)
Definition byte_bits (b : Z) : list bool :=
  [Z.testbit b 7; Z.testbit b 6; Z.testbit b 5; Z.testbit b 4;
   Z.testbit b 3; Z.testbit b 2; Z.testbit b 1; Z.testbit b 0].

Definition frame_bits (bytes : list Z) : list bool := bytes ≫= byte_bits.

Definition byte_bits_ok (b : Z) : bool := msb_first (byte_bits b) =? b.

(** ** Further definitions: the place of a stored bit *)

(** The place of bit [p] in the word [data[p / 8]] once [j] bits are
    stored, counted from the least significant bit: each later bit of the
    same word has pushed it one place to the left. *)
Definition slot (j : Z) (p : nat) : Z :=
  Z.min (8 * (Z.of_nat p / 8) + 8) j - 1 - Z.of_nat p.

(** Every bit received so far sits at its place in [data]. *)
Definition stored (bits : list bool) (data : list Z) : Prop :=
  forall (p : nat) (b : bool), bits !! p = Some b ->
    exists word, data !! (p / 8)%nat = Some word
                 /\ Z.testbit word (slot (Z.of_nat (length bits)) p) = b.

(** A line built from the widths the capture is to measure.  It is low at
    the first poll, which ends the wait loop, and then shows one pulse per
    width, the first one high; a pulse of width [c] after the first keeps
    the line for [c + 2] polls, the two reads that ended the measurement
    before it included.  After the last pulse the line rests. *)
Fixpoint level_after (cs : list N) (lvl : bool) (n : N) : bool :=
  match cs with
  | [] => lvl
  | c :: cs =>
      if (n <? c + 2)%N then lvl else level_after cs (negb lvl) (n - (c + 2))
  end.

Definition line_of_widths (cs : list N) (n : N) : bool :=
  if (n =? 0)%N then false else level_after cs true (n + 1).

(** Two bits at the threshold: after the four transitions of the preamble
    a pulse of 20 polls and, after a gap, a pulse of 21 polls. *)
Definition threshold_widths : list N := [10; 10; 10; 10; 20; 10; 21; 10]%N.
Definition line_threshold : N -> bool := line_of_widths threshold_widths.

(** A transmission of 48 bits: the frame 02 1A 01 05 22 and the byte A5
    after it. *)
Definition line_48_bits : N -> bool := line_of_frame 48 0x021A010522A5.

(** The five bytes the first forty bits spell. *)
Definition frame_of (bits : list bool) : list Z :=
  (fun k => msb_first (octet k (take 40 bits))) <$> [0; 1; 2; 3; 4]%nat.

(** ** Further definitions: [dht_float2String] *)

(** [printf("%d")]. *)
Definition dec (n : Z) : string := DecimalString.NilZero.string_of_int (Z.to_int n).

(** [os_sprintf(buffer, "%d.%d", a, b)]: the characters written to
    [buffer], which a terminating NUL follows. *)
Definition os_sprintf_d_dot_d (a b : Z) : string := dec a +:+ "." +:+ dec b.

(** [float - float]. *)
Definition float_sub : spec_float -> spec_float -> spec_float := SFsub F32.prec F32.emax.

(** The second argument of the format: [(int)((value - (int)value)*100)]. *)
Definition hundredths (value : spec_float) : Z :=
  F32.to_int (F32.mul (float_sub value (F32.of_int (F32.to_int value))) (F32.of_int 100)).

(** Lines 148-151: what [dht_float2String] leaves in [buffer]. *)
Definition dht_float2String (value : spec_float) : string :=
  os_sprintf_d_dot_d (F32.to_int value) (hundredths value).

(** What the formatting does on the value [n / 10], for every [n] of
    sixteen bits: the integer part is [n / 10], the second number is ten
    times the last digit or one less, and seven characters suffice. *)
Definition format_ok (n : Z) : bool :=
  let x := tenths n in
  let q := F32.to_int x in
  let k := hundredths x in
  (q =? n / 10) && (0 <=? k)
  && (10 * (n mod 10) - 1 <=? k) && (k <=? 10 * (n mod 10))
  && Nat.leb (String.length (os_sprintf_d_dot_d q k)) 7.

(** The same on [- n / 10]. *)
Definition format_negative_ok (n : Z) : bool :=
  let x := SFopp (tenths n) in
  let q := F32.to_int x in
  let k := hundredths x in
  (q =? - (n / 10)) && (k <=? 0)
  && (- (10 * (n mod 10)) <=? k) && (k <=? - (10 * (n mod 10) - 1))
  && Nat.leb (String.length (os_sprintf_d_dot_d q k)) 9.

(** On the integers of a byte. *)
Definition format_integer_ok (h : Z) : bool :=
  String.eqb (dht_float2String (F32.of_int h)) (dec h +:+ ".0")
  && Nat.leb (String.length (dec h +:+ ".0")) 5.

(** The numbers of the line printed after a reading (lines 130-131):
    [(int) (x * 100)]. *)
Definition times_100 (x : spec_float) : Z := F32.to_int (F32.mul x (F32.of_int 100)).

(** On the value [n / 10] the number printed is [10 n] or one less, and on
    [- n / 10] it is the opposite number. *)
Definition report_ok (n : Z) : bool :=
  let x := tenths n in
  let k := times_100 x in
  (10 * n - 1 <=? k) && (k <=? 10 * n) && (times_100 (SFopp x) =? - k).

(** On the integers of a byte it is a hundred times the integer. *)
Definition report_integer_ok (h : Z) : bool := times_100 (F32.of_int h) =? 100 * h.

(** ** The loops terminate within their fuel *)

Section Loops.

Variable line : N -> bool.

Lemma wait_for_drop_high (n : nat) : forall fuel pin i w,
  (forall k, (k < N.of_nat n)%N -> line (polls w + k) = true) ->
  i + Z.of_nat n <= DHT_MAXCOUNT ->
  wait_for_drop line (n + fuel) pin i w
  = wait_for_drop line fuel pin (i + Z.of_nat n) (tick (N.of_nat n) w).
Proof.
  induction n as [|n IH]; intros fuel pin i w Hhigh Hle.
  - simpl. f_equal; [lia|]. destruct w; unfold tick; simpl.
    f_equal; lia.
  - cbn [Nat.add wait_for_drop]. unfold GPIO_INPUT_GET.
    pose proof (Hhigh 0%N ltac:(lia)) as H0. rewrite N.add_0_r in H0. rewrite H0.
    replace (negb (1 =? 0) && (i <? DHT_MAXCOUNT)) with true.
    2:{ symmetry. apply andb_true_iff. split; [reflexivity | apply Z.ltb_lt; lia]. }
    rewrite IH.
    + f_equal; [lia|]. unfold tick, os_delay_us; simpl. f_equal; lia.
    + intros k Hk. simpl.
      replace (N.succ (polls w) + k)%N with (polls w + N.succ k)%N by lia.
      apply Hhigh. lia.
    + lia.
Qed.

Lemma wait_for_drop_ok : forall fuel pin i w,
  (Z.to_nat (DHT_MAXCOUNT - i) < fuel)%nat ->
  exists i' w', wait_for_drop line fuel pin i w = Ok (i', w')
    /\ console w' = console w /\ gpio_trace w' = gpio_trace w.
Proof.
  induction fuel as [|fuel IH]; intros pin i w Hfuel; [lia|].
  cbn [wait_for_drop]. unfold GPIO_INPUT_GET.
  destruct (negb _ && (i <? DHT_MAXCOUNT)) eqn:Hc.
  - apply andb_true_iff in Hc as [_ Hlt]. apply Z.ltb_lt in Hlt.
    destruct (IH pin (i + 1) (os_delay_us 1 (mkWorld (N.succ (polls w))
                (elapsed_us w) (gpio_trace w) (console w)))) as (i' & w' & -> & Hc & Hg).
    { lia. }
    eauto.
  - eauto.
Qed.

Lemma count_high_time_ok : forall fuel pin laststate counter w,
  0 <= counter < STALL ->
  (Z.to_nat (STALL - counter) <= fuel)%nat ->
  exists c w', count_high_time line fuel pin laststate counter w = Ok (c, w')
    /\ counter <= c <= STALL /\ console w' = console w.
Proof.
  induction fuel as [|fuel IH]; intros pin ls counter w Hc Hfuel; [lia|].
  cbn [count_high_time]. unfold GPIO_INPUT_GET.
  destruct (_ =? ls).
  - destruct (counter + 1 =? STALL) eqn:Hs.
    + apply Z.eqb_eq in Hs. eexists _, _. split; [reflexivity|]. simpl. split; [lia|done].
    + apply Z.eqb_neq in Hs.
      edestruct (IH pin ls (counter + 1)) as (c & w' & -> & Hb & Hcon); [lia|lia|].
      eexists _, _. split; [reflexivity|]. split; [lia|]. rewrite Hcon. done.
  - eexists _, _. split; [reflexivity|]. split; [lia|done].
Qed.

Lemma measure_ok pin laststate w :
  exists c ls w', measure line pin laststate w = Ok (c, ls, w')
    /\ 0 <= c <= STALL /\ console w' = console w.
Proof.
  unfold measure.
  destruct (count_high_time_ok (Z.to_nat STALL) pin laststate 0 w)
    as (c & w' & -> & Hb & Hcon); [unfold STALL; lia | lia |].
  simpl. unfold GPIO_INPUT_GET. eexists _, _, _. split; [reflexivity|].
  split; [lia|]. simpl. done.
Qed.

End Loops.

(** ** Packing bits into bytes *)

Lemma msb_first_snoc (l : list bool) (b : bool) :
  msb_first (l ++ [b]) = 2 * msb_first l + Z.b2z b.
Proof. unfold msb_first. rewrite fold_left_app. reflexivity. Qed.

Lemma msb_first_range (l : list bool) :
  0 <= msb_first l < 2 ^ Z.of_nat (length l).
Proof.
  induction l as [|b l IH] using rev_ind; [unfold msb_first; simpl; lia|].
  rewrite msb_first_snoc, length_app, Nat2Z.inj_add, Z.pow_add_r by lia.
  change (2 ^ Z.of_nat (length [b])) with 2. destruct b; simpl Z.b2z; lia.
Qed.

Lemma octet_length (k : nat) (bits : list bool) : (length (octet k bits) <= 8)%nat.
Proof. unfold octet. rewrite length_take. lia. Qed.

Lemma octet_byte (k : nat) (bits : list bool) : 0 <= msb_first (octet k bits) < 256.
Proof.
  pose proof (msb_first_range (octet k bits)) as H.
  pose proof (octet_length k bits) as Hl.
  assert (2 ^ Z.of_nat (length (octet k bits)) <= 2 ^ 8)
    by (apply Z.pow_le_mono_r; lia).
  lia.
Qed.

(** Appending a bit changes the octet being filled and no other. *)
Lemma octet_snoc_current (q r : nat) (bits : list bool) (b : bool) :
  length bits = (8 * q + r)%nat -> (r < 8)%nat ->
  octet q (bits ++ [b]) = octet q bits ++ [b] /\ length (octet q bits) = r.
Proof.
  intros Hlen Hr. unfold octet.
  rewrite drop_app_le by lia.
  assert (length (drop (8 * q) bits) = r) as Hd by (rewrite length_drop; lia).
  rewrite !take_ge by (rewrite ?length_app, Hd; simpl; lia).
  done.
Qed.

Lemma octet_snoc_other (q r k : nat) (bits : list bool) (b : bool) :
  length bits = (8 * q + r)%nat -> (r < 8)%nat -> k <> q ->
  octet k (bits ++ [b]) = octet k bits.
Proof.
  intros Hlen Hr Hk. unfold octet.
  destruct (decide (k < q)%nat) as [Hlt|Hge].
  - rewrite drop_app_le by lia. apply take_app_le. rewrite length_drop. lia.
  - rewrite !drop_ge by (rewrite ?length_app; simpl; lia). done.
Qed.

Lemma wrap32_small (x : Z) : - 2 ^ 31 <= x < 2 ^ 31 -> wrap32 x = x.
Proof. intros H. unfold wrap32. rewrite Z.mod_small; lia. Qed.

Lemma wrap32_double_even (v : Z) : Z.land (wrap32 (2 * v)) 1 = 0.
Proof.
  change 1 with (Z.ones 1). rewrite Z.land_ones by lia. unfold wrap32.
  change (2 ^ 1) with 2. change (2 ^ 31) with 2147483648.
  change (2 ^ 32) with 4294967296. Z.div_mod_to_equations. lia.
Qed.

Lemma lor_one_even (x : Z) : Z.land x 1 = 0 -> Z.lor x 1 = x + 1.
Proof. intros H. symmetry. apply Z.add_nocarry_lor. exact H. Qed.

Lemma update_at_Ok (data : list Z) (k : Z) (f : Z -> Z) (data' : list Z) :
  update_at data k f = Ok data' ->
  exists v, 0 <= k /\ data !! Z.to_nat k = Some v
            /\ data' = <[Z.to_nat k := f v]> data.
Proof.
  unfold update_at. destruct (k <? 0) eqn:Hk; [discriminate|].
  apply Z.ltb_ge in Hk. destruct (data !! Z.to_nat k) as [v|]; [|discriminate].
  intros [= <-]. eauto.
Qed.

Lemma update_at_in_range (data : list Z) (k : Z) (f : Z -> Z) :
  0 <= k < Z.of_nat (length data) ->
  exists v, data !! Z.to_nat k = Some v
            /\ update_at data k f = Ok (<[Z.to_nat k := f v]> data).
Proof.
  intros Hk. unfold update_at.
  destruct (k <? 0) eqn:E; [apply Z.ltb_lt in E; lia|].
  destruct (lookup_lt_is_Some_2 data (Z.to_nat k)) as [v Hv]; [lia|].
  rewrite Hv. eauto.
Qed.

Lemma update_at_fault (data : list Z) (k : Z) (f : Z -> Z) (e : fault) :
  update_at data k f = Fault e -> e = OutOfBounds k.
Proof.
  unfold update_at. destruct (k <? 0); [congruence|].
  destruct (data !! Z.to_nat k); congruence.
Qed.

(** What [shove_bit] does to the byte it targets and to the others. *)
Lemma shove_bit_Ok (counter j : Z) (data : list Z) (j' : Z) (data' : list Z) :
  shove_bit counter j data = Ok (j', data') ->
  exists v, 0 <= Z.quot j 8 /\ data !! Z.to_nat (Z.quot j 8) = Some v
    /\ j' = j + 1
    /\ data' = <[Z.to_nat (Z.quot j 8) := wrap32 (2 * v) + Z.b2z (bit_of counter)]> data.
Proof.
  unfold shove_bit, rbind, bit_of. intros Hs.
  destruct (update_at data _ _) as [d1|] eqn:H1; [|discriminate].
  apply update_at_Ok in H1 as (v & Hk & Hv & Hd1).
  rewrite Z.shiftl_mul_pow2, Z.mul_comm in Hd1 by lia. change (2 ^ 1) with 2 in Hd1.
  exists v. destruct (DHT_BREAKTIME <? counter).
  - destruct (update_at d1 _ _) as [d2|] eqn:H2; [|discriminate].
    apply update_at_Ok in H2 as (v2 & _ & Hv2 & Hd2).
    rewrite Hd1, list_lookup_insert_eq in Hv2 by (eapply lookup_lt_Some; eauto).
    injection Hv2 as <-. injection Hs as <- <-.
    rewrite Hd2, Hd1, list_insert_insert_eq, lor_one_even by apply wrap32_double_even.
    done.
  - injection Hs as <- <-. simpl. rewrite Z.add_0_r. done.
Qed.

Lemma shove_bit_fault (counter j : Z) (data : list Z) (e : fault) :
  shove_bit counter j data = Fault e -> e = OutOfBounds (Z.quot j 8).
Proof.
  unfold shove_bit, rbind.
  destruct (update_at data _ _) as [d1|] eqn:H1.
  - destruct (DHT_BREAKTIME <? counter); [|discriminate].
    destruct (update_at d1 _ _) eqn:H2; [discriminate|].
    intros [= <-]. eapply update_at_fault; eauto.
  - intros [= <-]. eapply update_at_fault; eauto.
Qed.

Lemma shove_bit_packed (counter j : Z) (bits : list bool) (data : list Z)
    (j' : Z) (data' : list Z) :
  j = Z.of_nat (length bits) -> packed bits data ->
  shove_bit counter j data = Ok (j', data') ->
  j' = Z.of_nat (length (bits ++ [bit_of counter]))
  /\ packed (bits ++ [bit_of counter]) data'
  /\ length data' = length data.
Proof.
  intros Hj Hp Hs. apply shove_bit_Ok in Hs as (v & Hq & Hv & -> & ->).
  rewrite Z.quot_div_nonneg in * by lia.
  set (q := Z.to_nat (j / 8)) in *. set (r := Z.to_nat (j mod 8)).
  assert (length bits = (8 * q + r)%nat /\ (r < 8)%nat) as [Hlen Hr].
  { subst q r. pose proof (Z.mod_pos_bound j 8 ltac:(lia)).
    pose proof (Z.div_mod j 8 ltac:(lia)). pose proof (Z.div_pos j 8). lia. }
  split; [rewrite length_app; simpl; lia|]. split; [|apply length_insert].
  intros k Hk. destruct (decide (k = q)) as [->|Hne].
  - rewrite list_lookup_insert_eq by (eapply lookup_lt_Some; eauto).
    destruct (octet_snoc_current q r bits (bit_of counter) Hlen Hr) as [-> Hol].
    rewrite msb_first_snoc. rewrite (Hp q Hk) in Hv. injection Hv as <-.
    pose proof (msb_first_range (octet q bits)) as Hrange. rewrite Hol in Hrange.
    assert (2 ^ Z.of_nat r <= 2 ^ 7) by (apply Z.pow_le_mono_r; lia).
    rewrite wrap32_small by lia. done.
  - rewrite list_lookup_insert_ne by done.
    rewrite (octet_snoc_other q r k) by done. auto.
Qed.

Lemma shove_all_packed (cs : list Z) : forall j bits data j' data',
  j = Z.of_nat (length bits) -> packed bits data ->
  shove_all cs j data = Ok (j', data') ->
  j' = Z.of_nat (length (bits ++ (bit_of <$> cs)))
  /\ packed (bits ++ (bit_of <$> cs)) data'
  /\ length data' = length data.
Proof.
  induction cs as [|c cs IH]; intros j bits data j' data' Hj Hp Hs.
  - simpl in *. injection Hs as <- <-. rewrite app_nil_r. done.
  - simpl in Hs. unfold rbind in Hs.
    destruct (shove_bit c j data) as [[j1 d1]|] eqn:H1; [|discriminate].
    destruct (shove_bit_packed _ _ _ _ _ _ Hj Hp H1) as (Hj1 & Hp1 & Hl1).
    destruct (IH _ _ _ _ _ Hj1 Hp1 Hs) as (Hj' & Hp' & Hl').
    rewrite <- app_assoc in Hj', Hp'. simpl in Hj', Hp'. rewrite fmap_cons.
    split; [done|]. split; [done|]. congruence.
Qed.

Lemma msb_first_testbit (l : list bool) : forall m b,
  l !! m = Some b ->
  Z.testbit (msb_first l) (Z.of_nat (length l - 1 - m)) = b.
Proof.
  induction l as [|x l IH] using rev_ind; intros m b Hm; [done|].
  rewrite msb_first_snoc, length_app. simpl length.
  destruct (decide (m = length l)) as [->|Hne].
  - rewrite lookup_app_r, Nat.sub_diag in Hm by lia. injection Hm as ->.
    replace (length l + 1 - 1 - length l)%nat with 0%nat by lia.
    apply Z.testbit_0_r.
  - assert (m < length l)%nat as Hlt.
    { apply lookup_lt_Some in Hm. rewrite length_app in Hm. simpl in Hm. lia. }
    rewrite lookup_app_l in Hm by done.
    replace (Z.of_nat (length l + 1 - 1 - m))
      with (Z.succ (Z.of_nat (length l - 1 - m))) by lia.
    rewrite Z.testbit_succ_r by lia. auto.
Qed.

(** The index test of line 110 selects the capture indices 4, 6, 8, ... *)
Lemma stores_bit_spec (i : Z) :
  stores_bit i = true <-> exists p : nat, i = 4 + 2 * Z.of_nat p.
Proof.
  unfold stores_bit. rewrite andb_true_iff, Z.ltb_lt, Z.eqb_eq. split.
  - intros [Hi Hr]. rewrite Z.rem_mod_nonneg in Hr by lia.
    exists (Z.to_nat ((i - 4) / 2)). Z.div_mod_to_equations. lia.
  - intros [p ->]. split; [lia|]. rewrite Z.rem_mod_nonneg by lia.
    Z.div_mod_to_equations. lia.
Qed.

Lemma data_pulses_lookup (cs : list Z) : forall i p,
  0 <= i -> data_pulses i cs !! p = cs !! (next_stored i + 2 * p)%nat.
Proof.
  induction cs as [|c cs IH]; intros i p Hi; [done|].
  cbn [data_pulses]. unfold stores_bit.
  assert (Z.rem i 2 = 0 \/ Z.rem i 2 = 1) as Hrem.
  { rewrite Z.rem_mod_nonneg by lia. Z.div_mod_to_equations. lia. }
  assert (Z.rem (i + 1) 2 = 1 - Z.rem i 2) as Hnext.
  { rewrite !Z.rem_mod_nonneg by lia. Z.div_mod_to_equations. lia. }
  assert (exists q, i = 2 * q + Z.rem i 2) as [q Hq].
  { exists (i / 2). rewrite Z.rem_mod_nonneg by lia. Z.div_mod_to_equations. lia. }
  destruct ((3 <? i) && (Z.rem i 2 =? 0)) eqn:Hsel.
  - apply andb_true_iff in Hsel as [H3 H0]. apply Z.ltb_lt in H3. apply Z.eqb_eq in H0.
    assert (next_stored i = 0%nat) as ->.
    { unfold next_stored. destruct (i <=? 4) eqn:E; [apply Z.leb_le in E|]; lia. }
    destruct p as [|p]; [done|]. simpl. rewrite IH by lia.
    assert (next_stored (i + 1) = 1%nat) as ->.
    { unfold next_stored. destruct (i + 1 <=? 4) eqn:E; [apply Z.leb_le in E|]; lia. }
    f_equal. lia.
  - assert (next_stored i = S (next_stored (i + 1))) as ->.
    { apply andb_false_iff in Hsel. unfold next_stored.
      destruct (i <=? 4) eqn:E1; destruct (i + 1 <=? 4) eqn:E2;
        rewrite ?Z.leb_le, ?Z.leb_gt, ?Z.ltb_ge, ?Z.eqb_neq in *; lia. }
    simpl. apply IH. lia.
Qed.

Section Capture.

Variable line : N -> bool.

(** The loop is [shove_all] over the stored widths of the capture. *)
Lemma read_data_shove : forall fuel pin i j c0 ls data w cap w',
  read_data line fuel pin i j c0 ls data w = Ok (cap, w') ->
  let ws := pulse_widths line (Z.to_nat (DHT_MAXTIMINGS - i)) pin ls w in
  shove_all (data_pulses i ws) j data = Ok (cap_j cap, cap_data cap)
  /\ cap_i cap = i + Z.of_nat (length ws)
  /\ console w' = console w.
Proof.
  induction fuel as [|fuel IH]; intros pin i j c0 ls data w cap w' Hr; [done|].
  cbn [read_data] in Hr. destruct (i <? DHT_MAXTIMINGS) eqn:Hi.
  - apply Z.ltb_lt in Hi.
    replace (Z.to_nat (DHT_MAXTIMINGS - i))
      with (S (Z.to_nat (DHT_MAXTIMINGS - (i + 1)))) by lia.
    cbn [pulse_widths].
    destruct (measure_ok line pin ls w) as (c & ls' & w1 & Hm & Hc & Hcon).
    rewrite Hm in *. cbn [rbind] in Hr.
    destruct (c =? STALL).
    { injection Hr as <- <-. simpl. split; [done|]. split; [lia|done]. }
    cbn [data_pulses length]. destruct (stores_bit i).
    + cbn [shove_all]. unfold rbind in *.
      destruct (shove_bit c j data) as [[j1 d1]|]; [|done].
      destruct (IH _ _ _ _ _ _ _ _ _ Hr) as (Hs & Hci & Hcw).
      split; [done|]. split; [lia|congruence].
    + destruct (IH _ _ _ _ _ _ _ _ _ Hr) as (Hs & Hci & Hcw).
      split; [done|]. split; [lia|congruence].
  - apply Z.ltb_ge in Hi. injection Hr as <- <-.
    replace (Z.to_nat (DHT_MAXTIMINGS - i)) with 0%nat by lia.
    simpl. split; [done|]. split; [lia|done].
Qed.

(** With one unit of fuel more than the transitions left, the loop ends:
    it returns, or it stops at a write outside [data]. *)
Lemma read_data_ends : forall fuel pin i j c0 ls data w,
  (Z.to_nat (DHT_MAXTIMINGS - i) < fuel)%nat ->
  (exists cap w', read_data line fuel pin i j c0 ls data w = Ok (cap, w'))
  \/ (exists k, read_data line fuel pin i j c0 ls data w = Fault (OutOfBounds k)).
Proof.
  induction fuel as [|fuel IH]; intros pin i j c0 ls data w Hfuel; [lia|].
  cbn [read_data]. destruct (i <? DHT_MAXTIMINGS) eqn:Hi; [|eauto].
  apply Z.ltb_lt in Hi.
  destruct (measure_ok line pin ls w) as (c & ls' & w1 & -> & Hc & Hcon).
  cbn [rbind]. destruct (c =? STALL); [eauto|].
  destruct (stores_bit i); [|apply IH; lia].
  destruct (shove_bit c j data) as [[j1 d1]|e] eqn:Hs; cbn [rbind].
  - apply IH; lia.
  - apply shove_bit_fault in Hs as ->. eauto.
Qed.

(** The counters stay small: no [int] of the loop can overflow. *)
Lemma read_data_bounds : forall fuel pin i j c0 ls data w cap w',
  0 <= i <= DHT_MAXTIMINGS -> 0 <= c0 <= STALL ->
  read_data line fuel pin i j c0 ls data w = Ok (cap, w') ->
  i <= cap_i cap <= DHT_MAXTIMINGS
  /\ j <= cap_j cap <= j + (cap_i cap - i)
  /\ 0 <= cap_counter cap <= STALL.
Proof.
  induction fuel as [|fuel IH]; intros pin i j c0 ls data w cap w' Hi Hc0 Hr; [done|].
  cbn [read_data] in Hr. destruct (i <? DHT_MAXTIMINGS) eqn:Hlt.
  - apply Z.ltb_lt in Hlt.
    destruct (measure_ok line pin ls w) as (c & ls' & w1 & Hm & Hc & Hcon).
    rewrite Hm in Hr. cbn [rbind] in Hr.
    destruct (c =? STALL); [injection Hr as <- <-; simpl; lia|].
    destruct (stores_bit i).
    + unfold rbind in Hr.
      destruct (shove_bit c j data) as [[j1 d1]|] eqn:Hs; [|done].
      apply shove_bit_Ok in Hs as (v & _ & _ & -> & _).
      apply IH in Hr; lia.
    + apply IH in Hr; lia.
  - injection Hr as <- <-. simpl. lia.
Qed.

Lemma initial_data_lookup (junk : Z -> Z) (k : nat) :
  (k < 5)%nat -> initial_data junk !! k = Some 0.
Proof.
  intros Hk. unfold initial_data.
  rewrite list_lookup_fmap, lookup_seqZ_lt by (unfold DATA_LEN; lia).
  simpl. destruct (0 + Z.of_nat k <? 5) eqn:E; [done|]. apply Z.ltb_ge in E. lia.
Qed.

Lemma initial_data_length (junk : Z -> Z) :
  length (initial_data junk) = Z.to_nat DATA_LEN.
Proof. unfold initial_data. rewrite length_fmap, length_seqZ. done. Qed.

Lemma initial_data_packed (junk : Z -> Z) : packed [] (initial_data junk).
Proof.
  intros k Hk. rewrite initial_data_lookup by done.
  unfold octet. rewrite drop_nil, take_nil. done.
Qed.

Lemma read_data_packed pin junk w cap w' :
  read_data line (S (Z.to_nat DHT_MAXTIMINGS)) pin 0 0 0 1 (initial_data junk) w
    = Ok (cap, w') ->
  cap_j cap = Z.of_nat (length (decoded_bits line pin w))
  /\ packed (decoded_bits line pin w) (cap_data cap)
  /\ length (cap_data cap) = Z.to_nat DATA_LEN
  /\ console w' = console w.
Proof.
  intros Hr. apply read_data_shove in Hr as (Hs & _ & Hcon).
  rewrite Z.sub_0_r in Hs.
  eapply (shove_all_packed _ _ []) in Hs as (Hj & Hp & Hl);
    [|done|apply initial_data_packed].
  rewrite initial_data_length in Hl. done.
Qed.

Lemma packed_bytes bits data k :
  packed bits data -> (k < 5)%nat -> 0 <= byte_at data k < 256.
Proof.
  intros Hp Hk. unfold byte_at. rewrite (Hp k Hk). simpl. apply octet_byte.
Qed.

End Capture.

(** ** Scaling, checked on every byte value *)

Lemma SF_same_eq (x y : spec_float) : SF_same x y = true -> x = y.
Proof.
  destruct x as [s|s| |s m e], y as [s'|s'| |s' m' e']; simpl; try discriminate.
  - intros H%Bool.eqb_prop. congruence.
  - intros H%Bool.eqb_prop. congruence.
  - done.
  - rewrite !andb_true_iff. intros [[H1%Bool.eqb_prop H2%Pos.eqb_eq] H3%Z.eqb_eq].
    congruence.
Qed.

Lemma all_below_spec (n : Z) (f : Z -> bool) (a : Z) :
  all_below n f = true -> 0 <= a < n -> f a = true.
Proof.
  unfold all_below. rewrite forallb_forall. intros H Ha. apply H.
  apply list_elem_of_In, elem_of_seqZ. lia.
Qed.

Lemma all_words_spec (hi : Z) (f : Z -> bool) (n : Z) :
  all_words hi f = true -> 0 <= n < hi * 256 -> f n = true.
Proof.
  intros H Hn. unfold all_words in H.
  assert (0 <= n / 256 < hi) as Ha by (Z.div_mod_to_equations; lia).
  assert (0 <= n mod 256 < 256) as Hb by (apply Z.mod_pos_bound; lia).
  pose proof (all_below_spec _ _ _ (all_below_spec _ _ _ H Ha) Hb) as Hf.
  simpl in Hf. rewrite (Z.div_mod n 256) at 1 by lia.
  rewrite (Z.mul_comm 256). exact Hf.
Qed.

Lemma div_10_checked : all_words 256 div_10_ok = true.
Proof. vm_cast_no_check (eq_refl true). Qed.

Lemma magnitude_checked : all_below 128 (fun hi => all_below 256 (magnitude_ok hi)) = true.
Proof. vm_cast_no_check (eq_refl true). Qed.

Lemma times_minus_1_checked : all_words 128 times_minus_1_ok = true.
Proof. vm_cast_no_check (eq_refl true). Qed.

Lemma int_exact_checked : all_below 256 int_exact_ok = true.
Proof. vm_cast_no_check (eq_refl true). Qed.

Lemma div_10_tenths (n : Z) : 0 <= n < 65536 -> div_10 (F32.of_int n) = tenths n.
Proof.
  intros Hn. apply SF_same_eq.
  pose proof (all_words_spec _ _ _ div_10_checked Hn) as H.
  apply andb_true_iff in H as [H _]. exact H.
Qed.

Lemma tenths_near (n : Z) : 0 <= n < 65536 -> SF_near_tenth (tenths n) n = true.
Proof.
  intros Hn. rewrite <- div_10_tenths by done.
  pose proof (all_words_spec _ _ _ div_10_checked Hn) as H.
  apply andb_true_iff in H as [_ H]. exact H.
Qed.

Lemma SFopp_near (x : spec_float) (n : Z) :
  SF_near_tenth x n = true -> SF_near_tenth (SFopp x) (- n) = true.
Proof.
  destruct x as [s|s| |s m e]; simpl; try done.
  - rewrite !Z.eqb_eq. lia.
  - rewrite !andb_true_iff, !Z.leb_le. intros [He H]. split; [done|].
    destruct s; simpl in *; lia.
Qed.

Lemma scale_humidity_dht22 (data : list Z) :
  0 <= byte_at data 0 < 256 -> 0 <= byte_at data 1 < 256 ->
  scale_humidity DHT22 data = tenths (byte_at data 0 * 256 + byte_at data 1).
Proof.
  intros H0 H1. unfold scale_humidity. cbn [DHTType_eqb]. apply div_10_tenths. lia.
Qed.

Lemma land_0x7f_range (c : Z) : 0 <= Z.land c 0x7f < 128.
Proof.
  change 0x7f with (Z.ones 7). rewrite Z.land_ones by lia.
  apply Z.mod_pos_bound. lia.
Qed.

Lemma scale_temperature_dht22 (data : list Z) :
  0 <= byte_at data 2 < 256 -> 0 <= byte_at data 3 < 256 ->
  scale_temperature DHT22 data
  = let magnitude := tenths (Z.land (byte_at data 2) 0x7f * 256 + byte_at data 3) in
    if Z.land (byte_at data 2) 0x80 =? 0 then magnitude else SFopp magnitude.
Proof.
  intros H2 H3. unfold scale_temperature. cbn [DHTType_eqb].
  pose proof (land_0x7f_range (byte_at data 2)) as Hhi.
  rewrite (SF_same_eq _ _ (all_below_spec _ _ _
             (all_below_spec _ _ _ magnitude_checked Hhi) H3)).
  rewrite div_10_tenths by lia. cbn zeta.
  destruct (Z.land (byte_at data 2) 128 =? 0); cbn [negb]; [reflexivity|].
  apply SF_same_eq.
  apply (all_words_spec _ _ _ times_minus_1_checked). lia.
Qed.

Lemma of_int_exact (a : Z) : 0 <= a < 256 -> SF_is_int (F32.of_int a) a = true.
Proof. apply (all_below_spec _ _ _ int_exact_checked). Qed.

Lemma checksum_mod (s : Z) : Z.land s 0xFF = s mod 256.
Proof. change 0xFF with (Z.ones 8). rewrite Z.land_ones by lia. done. Qed.

(** ** The wait loop *)

Section Read.

Variable line : N -> bool.

Lemma wait_for_drop_timeout fuel pin w :
  (forall k, (k < 32000)%N -> line (polls w + k) = true) ->
  (Z.to_nat DHT_MAXCOUNT < fuel)%nat ->
  wait_for_drop line fuel pin 0 w = Ok (DHT_MAXCOUNT, after_wait 32000 w).
Proof.
  intros Hhigh Hfuel.
  replace fuel with (Z.to_nat DHT_MAXCOUNT + (fuel - Z.to_nat DHT_MAXCOUNT))%nat by lia.
  rewrite wait_for_drop_high.
  - destruct (fuel - Z.to_nat DHT_MAXCOUNT)%nat as [|rest] eqn:E; [lia|].
    cbn [wait_for_drop]. unfold GPIO_INPUT_GET.
    replace (0 + Z.of_nat (Z.to_nat DHT_MAXCOUNT)) with DHT_MAXCOUNT
      by (unfold DHT_MAXCOUNT; lia).
    rewrite Z.ltb_irrefl, andb_false_r.
    replace (N.of_nat (Z.to_nat DHT_MAXCOUNT)) with 32000%N
      by (unfold DHT_MAXCOUNT; lia).
    reflexivity.
  - intros k Hk. apply Hhigh. unfold DHT_MAXCOUNT in Hk. lia.
  - unfold DHT_MAXCOUNT. lia.
Qed.

Lemma wait_for_drop_low fuel pin w (k : N) :
  (k < 32000)%N ->
  (forall k', (k' < k)%N -> line (polls w + k') = true) ->
  line (polls w + k) = false ->
  (Z.to_nat DHT_MAXCOUNT < fuel)%nat ->
  wait_for_drop line fuel pin 0 w = Ok (Z.of_N k, after_wait k w).
Proof.
  intros Hk Hhigh Hlow Hfuel.
  replace fuel with (N.to_nat k + (fuel - N.to_nat k))%nat
    by (unfold DHT_MAXCOUNT in Hfuel; lia).
  rewrite wait_for_drop_high.
  - destruct (fuel - N.to_nat k)%nat as [|rest] eqn:E;
      [unfold DHT_MAXCOUNT in Hfuel; lia|].
    cbn [wait_for_drop]. unfold GPIO_INPUT_GET. cbn [polls tick].
    rewrite N2Nat.id, Hlow. cbn [Z.eqb negb andb].
    rewrite Z.add_0_l, N_nat_Z. reflexivity.
  - intros k' Hk'. apply Hhigh. lia.
  - unfold DHT_MAXCOUNT. lia.
Qed.

Lemma dht_read_captures sensor output junk w c w2 :
  captures line sensor junk w c w2 ->
  dht_read line sensor output junk w
  = Ok (conclude sensor output (cap_j c) (cap_data c) w2).
Proof.
  intros (i & w1 & Hw & Hi & Hr). unfold dht_read. rewrite Hw. cbn [rbind].
  apply Z.eqb_neq in Hi. rewrite Hi. unfold sample. rewrite Hr. reflexivity.
Qed.

Lemma captures_bytes sensor junk w c w2 (k : nat) :
  captures line sensor junk w c w2 -> (k < 5)%nat ->
  0 <= byte_at (cap_data c) k < 256.
Proof.
  intros (i & w1 & _ & _ & Hr) Hk.
  apply read_data_packed in Hr as (_ & Hp & _). eapply packed_bytes; eauto.
Qed.

(** [dht_read] never runs out of fuel: it returns, or it stops at a write
    outside [data]. *)
Lemma dht_read_ends sensor output junk w :
  (exists r, dht_read line sensor output junk w = Ok r)
  \/ (exists k, dht_read line sensor output junk w = Fault (OutOfBounds k)).
Proof.
  unfold dht_read.
  destruct (wait_for_drop_ok line (S (Z.to_nat DHT_MAXCOUNT)) (pin sensor) 0
              (handshake (pin sensor) w)) as (i & w1 & -> & _); [lia|].
  cbn [rbind]. destruct (i =? DHT_MAXCOUNT); [eauto|]. unfold sample.
  destruct (read_data_ends line (S (Z.to_nat DHT_MAXTIMINGS)) (pin sensor)
              0 0 0 1 (initial_data junk) w1) as [(c & w2 & ->)|(k & ->)];
    [lia| |]; cbn [rbind]; eauto.
Qed.

End Read.

(** ** The interpretation of a captured frame *)

Lemma dht_read_valid_frame (line : N -> bool) sensor output junk w c w2 :
  captures line sensor junk w c w2 ->
  39 <= cap_j c ->
  raw c 4 = (raw c 0 + raw c 1 + raw c 2 + raw c 3) mod 256 ->
  exists w',
    dht_read line sensor output junk w
    = Ok (true,
          mkOutput (scale_temperature (type sensor) (cap_data c))
                   (scale_humidity (type sensor) (cap_data c)), w').
Proof.
  intros Hcap Hj Hsum. rewrite (dht_read_captures _ _ _ _ _ _ _ Hcap).
  unfold conclude. apply Z.leb_le in Hj. rewrite Hj, checksum_mod.
  fold (raw c 0) (raw c 1) (raw c 2) (raw c 3) (raw c 4).
  apply Z.eqb_eq in Hsum. rewrite Hsum. eexists. reflexivity.
Qed.

(** C1: a captured frame of at least 39 bits makes [dht_read] return [true]
    with a reading exactly when [raw[4]] is
    [(raw[0] + raw[1] + raw[2] + raw[3]) mod 256].  Otherwise [dht_read]
    returns [false], the caller's structure is as it was, and the last line
    printed reports the bit count, [raw[4]] as the expected value and the
    computed sum. *)
Theorem checksum_decides_read (line : N -> bool) sensor output junk w c w2 :
  captures line sensor junk w c w2 ->
  39 <= cap_j c ->
  let sum := (raw c 0 + raw c 1 + raw c 2 + raw c 3) mod 256 in
  let shown := os_printf (msg_frame (type sensor) (raw c 0) (raw c 1) (raw c 2)
                            (raw c 3) (raw c 4) sum (pin sensor)) w2 in
  ((exists reading w', dht_read line sensor output junk w = Ok (true, reading, w'))
   <-> raw c 4 = sum)
  /\ (raw c 4 = sum ->
      exists w', dht_read line sensor output junk w
        = Ok (true,
              mkOutput (scale_temperature (type sensor) (cap_data c))
                       (scale_humidity (type sensor) (cap_data c)), w')
        /\ exists m, console w' = m :: console shown)
  /\ (raw c 4 <> sum ->
      dht_read line sensor output junk w
      = Ok (false, output,
            os_printf (msg_checksum (cap_j c) (raw c 4) sum (pin sensor)) shown)).
Proof.
  intros Hcap Hj sum shown.
  rewrite (dht_read_captures _ _ _ _ _ _ _ Hcap).
  unfold conclude. apply Z.leb_le in Hj. rewrite Hj. rewrite checksum_mod.
  fold (raw c 0) (raw c 1) (raw c 2) (raw c 3) (raw c 4). fold sum. fold shown.
  destruct (raw c 4 =? sum) eqn:E.
  - apply Z.eqb_eq in E. split; [|split].
    + split; [done|]. intros _. eauto.
    + intros _. eexists. split; [reflexivity|]. simpl. eauto.
    + done.
  - apply Z.eqb_neq in E. split; [|split].
    + split; [|done]. intros (r & w' & [=]).
    + done.
    + done.
Qed.

(** C2: for a DHT22, a captured frame that passes the checksum gives the
    humidity [(raw[0]*256 + raw[1]) / 10] and the temperature
    [((raw[2] & 0x7F)*256 + raw[3]) / 10], with its sign flipped when bit
    0x80 of [raw[2]] is set.  The values are binary32 numbers: each is the
    correctly rounded quotient ([tenths]) and lies within half a unit in
    the last place of the exact one. *)
Theorem dht22_scaling (line : N -> bool) sensor output junk w c w2 :
  captures line sensor junk w c w2 ->
  type sensor = DHT22 ->
  39 <= cap_j c ->
  raw c 4 = (raw c 0 + raw c 1 + raw c 2 + raw c 3) mod 256 ->
  let h := raw c 0 * 256 + raw c 1 in
  let t := Z.land (raw c 2) 0x7F * 256 + raw c 3 in
  let negative := negb (Z.land (raw c 2) 0x80 =? 0) in
  exists reading w',
    dht_read line sensor output junk w = Ok (true, reading, w')
    /\ humidity reading = tenths h
    /\ SF_near_tenth (humidity reading) h = true
    /\ temperature reading = (if negative then SFopp (tenths t) else tenths t)
    /\ SF_near_tenth (temperature reading) (if negative then - t else t) = true.
Proof.
  intros Hcap Hty Hj Hsum h t negative.
  destruct (dht_read_valid_frame line sensor output junk w c w2 Hcap Hj Hsum)
    as (w' & ->). eexists _, _. split; [reflexivity|].
  rewrite Hty. cbn [humidity temperature].
  pose proof (captures_bytes line sensor junk w c w2 0 Hcap ltac:(lia)) as R0.
  pose proof (captures_bytes line sensor junk w c w2 1 Hcap ltac:(lia)) as R1.
  pose proof (captures_bytes line sensor junk w c w2 2 Hcap ltac:(lia)) as R2.
  pose proof (captures_bytes line sensor junk w c w2 3 Hcap ltac:(lia)) as R3.
  pose proof (land_0x7f_range (raw c 2)) as Rhi.
  rewrite scale_humidity_dht22, scale_temperature_dht22 by done.
  fold (raw c 0) (raw c 1) (raw c 2) (raw c 3) in *. fold h t. cbn zeta.
  split; [done|]. split; [apply tenths_near; lia|].
  unfold negative. destruct (Z.land (raw c 2) 128 =? 0); cbn [negb].
  - split; [done|]. apply tenths_near. lia.
  - split; [done|]. apply SFopp_near, tenths_near. lia.
Qed.

(** C3: for a DHT11, the captured frame [h, x, t, y, (h+x+t+y) mod 256]
    gives the humidity [h] and the temperature [t], both exactly, whatever
    [x] and [y] are; with [x = y = 0] this is the frame
    [h, 0, t, 0, (h+t) mod 256]. *)
Theorem dht11_pass_through (line : N -> bool) sensor output junk w c w2 (h x t y : Z) :
  captures line sensor junk w c w2 ->
  type sensor = DHT11 ->
  39 <= cap_j c ->
  take 5 (cap_data c) = [h; x; t; y; (h + x + t + y) mod 256] ->
  exists w',
    dht_read line sensor output junk w
      = Ok (true, mkOutput (F32.of_int t) (F32.of_int h), w')
    /\ SF_is_int (F32.of_int h) h = true
    /\ SF_is_int (F32.of_int t) t = true.
Proof.
  intros Hcap Hty Hj Hraw.
  assert (forall k, (k < 5)%nat ->
            raw c k = default 0 ([h; x; t; y; (h + x + t + y) mod 256] !! k))
    as Hb.
  { intros k Hk. unfold raw, byte_at. rewrite <- Hraw, lookup_take.
    destruct (decide (k < 5)%nat); [done|lia]. }
  pose proof (Hb 0%nat ltac:(lia)) as H0. pose proof (Hb 1%nat ltac:(lia)) as H1.
  pose proof (Hb 2%nat ltac:(lia)) as H2. pose proof (Hb 3%nat ltac:(lia)) as H3.
  pose proof (Hb 4%nat ltac:(lia)) as H4. simpl in H0, H1, H2, H3, H4.
  destruct (dht_read_valid_frame line sensor output junk w c w2 Hcap Hj)
    as (w' & ->); [rewrite H0, H1, H2, H3, H4; done|].
  exists w'. rewrite Hty. unfold scale_temperature, scale_humidity.
  cbn [DHTType_eqb]. fold (raw c 0) (raw c 2). rewrite H0, H2. split; [done|].
  pose proof (captures_bytes line sensor junk w c w2 0 Hcap ltac:(lia)) as Rh.
  pose proof (captures_bytes line sensor junk w c w2 2 Hcap ltac:(lia)) as Rt.
  fold (raw c 0) in Rh. fold (raw c 2) in Rt. rewrite H0 in Rh. rewrite H2 in Rt.
  split; apply of_int_exact; done.
Qed.

(** C5: when the capture ends with fewer than 39 bits, [dht_read] returns
    [false], leaves the caller's structure alone and prints the
    too-few-bits line with the count of bits collected. *)
Theorem too_few_bits (line : N -> bool) sensor output junk w c w2 :
  captures line sensor junk w c w2 ->
  cap_j c < 39 ->
  dht_read line sensor output junk w
  = Ok (false, output, os_printf (msg_too_few (cap_j c) (pin sensor)) w2).
Proof.
  intros Hcap Hj. rewrite (dht_read_captures _ _ _ _ _ _ _ Hcap).
  unfold conclude. apply Z.leb_gt in Hj. rewrite Hj. reflexivity.
Qed.

(** C9: a call of [dht_read] that returns [false] hands the caller's
    structure back as it received it, and the last line it printed is the
    timeout, the too-few-bits or the checksum report. *)
Theorem failed_read_keeps_output (line : N -> bool) sensor output junk w output' w' :
  dht_read line sensor output junk w = Ok (false, output', w') ->
  output' = output
  /\ exists m rest, console w' = m :: rest
     /\ (m = msg_timeout (pin sensor)
         \/ (exists j, m = msg_too_few j (pin sensor))
         \/ (exists j expected got, m = msg_checksum j expected got (pin sensor))).
Proof.
  unfold dht_read.
  destruct (wait_for_drop_ok line (S (Z.to_nat DHT_MAXCOUNT)) (pin sensor) 0
              (handshake (pin sensor) w)) as (i & w1 & -> & _); [lia|].
  cbn [rbind]. destruct (i =? DHT_MAXCOUNT).
  { intros [= <- <-]. split; [done|]. simpl. eauto 10. }
  unfold sample.
  destruct (read_data line _ _ _ _ _ _ _ w1) as [[c w2]|e]; cbn [rbind]; [|done].
  unfold conclude. destruct (39 <=? cap_j c).
  - destruct (byte_at (cap_data c) 4 =? _); [done|].
    intros [= <- <-]. split; [done|]. simpl. eauto 10.
  - intros [= <- <-]. split; [done|]. simpl. eauto 10.
Qed.

(** ** The wait for the sensor *)

(** C6: if the line reads high at each of the 32000 polls of the wait loop,
    the loop ends with [i = 32000] after 32000 delays of one microsecond,
    and [dht_read] prints the timeout line and returns [false] with the
    caller's structure untouched.  If the first low level comes at poll
    [k < 32000], [dht_read] goes on to the capture, from the world after
    that poll. *)
Theorem wait_loop_bound (line : N -> bool) sensor output junk w :
  let w0 := handshake (pin sensor) w in
  ((forall k, (k < 32000)%N -> line (polls w0 + k)%N = true) ->
   wait_for_drop line (S (Z.to_nat DHT_MAXCOUNT)) (pin sensor) 0 w0
     = Ok (32000, after_wait 32000 w0)
   /\ elapsed_us (after_wait 32000 w0) = elapsed_us w0 + 32000
   /\ dht_read line sensor output junk w
      = Ok (false, output, os_printf (msg_timeout (pin sensor)) (after_wait 32000 w0)))
  /\ (forall k, (k < 32000)%N ->
      (forall k', (k' < k)%N -> line (polls w0 + k')%N = true) ->
      line (polls w0 + k)%N = false ->
      dht_read line sensor output junk w
      = sample line sensor output junk (after_wait k w0)).
Proof.
  intros w0. split.
  - intros Hhigh.
    assert (wait_for_drop line (S (Z.to_nat DHT_MAXCOUNT)) (pin sensor) 0 w0
            = Ok (32000, after_wait 32000 w0)) as Hw
      by (apply wait_for_drop_timeout; [done|lia]).
    split; [done|]. split; [done|].
    unfold dht_read. fold w0. rewrite Hw. reflexivity.
  - intros k Hk Hhigh Hlow. unfold dht_read. fold w0.
    rewrite (wait_for_drop_low line _ _ _ k Hk Hhigh Hlow) by lia.
    cbn [rbind].
    replace (Z.of_N k =? DHT_MAXCOUNT) with false; [done|].
    symmetry. apply Z.eqb_neq. unfold DHT_MAXCOUNT. lia.
Qed.

(** ** The capture loop *)

Lemma shove_bit_in_range (counter j : Z) (data : list Z) (v : Z) :
  0 <= j -> data !! Z.to_nat (j / 8) = Some v ->
  shove_bit counter j data
  = Ok (j + 1, <[Z.to_nat (j / 8) := wrap32 (2 * v) + Z.b2z (bit_of counter)]> data).
Proof.
  intros Hj Hv. unfold shove_bit, bit_of. rewrite Z.quot_div_nonneg by lia.
  pose proof (lookup_lt_Some _ _ _ Hv) as Hlen.
  assert (0 <= j / 8 < Z.of_nat (length data)) as Hk
    by (pose proof (Z.div_pos j 8); lia).
  destruct (update_at_in_range data (j / 8) (fun v => wrap32 (Z.shiftl v 1)) Hk)
    as (v1 & Hv1 & ->).
  rewrite Hv in Hv1. injection Hv1 as <-. cbn [rbind].
  rewrite Z.shiftl_mul_pow2, Z.mul_comm by lia. change (2 ^ 1) with 2.
  destruct (DHT_BREAKTIME <? counter).
  - destruct (update_at_in_range (<[Z.to_nat (j / 8) := wrap32 (2 * v)]> data)
                (j / 8) (fun v => Z.lor v 1)) as (v2 & Hv2 & ->).
    { rewrite length_insert. done. }
    rewrite list_lookup_insert_eq in Hv2 by done. injection Hv2 as <-.
    cbn [rbind]. rewrite list_insert_insert_eq, lor_one_even by apply wrap32_double_even.
    reflexivity.
  - cbn [rbind Z.b2z]. rewrite Z.add_0_r. reflexivity.
Qed.

Lemma testbit_appended (v : Z) (b : bool) :
  Z.testbit (wrap32 (2 * v) + Z.b2z b) 0 = b.
Proof.
  assert (exists a, wrap32 (2 * v) = 2 * a) as [a ->].
  { exists (wrap32 (2 * v) / 2). pose proof (wrap32_double_even v) as H.
    change 1 with (Z.ones 1) in H. rewrite Z.land_ones in H by lia.
    change (2 ^ 1) with 2 in H. Z.div_mod_to_equations. lia. }
  apply Z.testbit_0_r.
Qed.

(** C8: the capture stores a bit at the capture indices 4, 6, 8, ... and at
    no other: bit [p] comes from the width measured at index [4 + 2p].
    [j] counts these bits, and each of the first five bytes of [data] is
    the number its group of eight bits spells most significant bit first,
    so that bit [8k + m] of the frame is bit [7 - m] of byte [k]. *)
Theorem capture_msb_first (line : N -> bool) pin junk w cap w' :
  read_data line (S (Z.to_nat DHT_MAXTIMINGS)) pin 0 0 0 1 (initial_data junk) w
    = Ok (cap, w') ->
  let widths := pulse_widths line (Z.to_nat DHT_MAXTIMINGS) pin 1 w in
  let bits := decoded_bits line pin w in
  (forall i, stores_bit i = true <-> exists p : nat, i = 4 + 2 * Z.of_nat p)
  /\ (forall p : nat, bits !! p = bit_of <$> widths !! (4 + 2 * p)%nat)
  /\ cap_j cap = Z.of_nat (length bits)
  /\ (forall k, (k < 5)%nat -> cap_data cap !! k = Some (msb_first (octet k bits)))
  /\ (forall k m b, (k < 5)%nat -> (m < 8)%nat ->
        (8 * k + 8 <= length bits)%nat ->
        bits !! (8 * k + m)%nat = Some b ->
        Z.testbit (raw cap k) (7 - Z.of_nat m) = b).
Proof.
  intros Hr widths bits. split; [apply stores_bit_spec|]. split.
  { intros p. unfold bits, decoded_bits.
    rewrite list_lookup_fmap, data_pulses_lookup by lia. reflexivity. }
  apply read_data_packed in Hr as (Hj & Hp & _). fold bits in Hj, Hp.
  split; [done|]. split; [done|].
  intros k m b Hk Hm Hfull Hb. unfold raw, byte_at. rewrite (Hp k Hk). cbn [default].
  assert (octet k bits !! m = Some b) as Ho.
  { unfold octet. rewrite lookup_take, lookup_drop.
    destruct (decide (m < 8)%nat); [done|lia]. }
  assert (length (octet k bits) = 8%nat) as Hl.
  { unfold octet. rewrite length_take, length_drop. lia. }
  pose proof (msb_first_testbit _ _ _ Ho) as Ht. rewrite Hl in Ht.
  replace (7 - Z.of_nat m) with (Z.of_nat (8 - 1 - m)) by lia. done.
Qed.

(** ** The driver on simulated lines *)

(** Running the driver on a simulated line. *)
Ltac simulate := vm_compute; reflexivity.

(** [captures] on a simulated line: run the wait loop, check that it did
    not time out, run the capture loop. *)
Ltac simulate_capture :=
  eexists _, _; split; [simulate | split; [vm_compute; discriminate | simulate]].

(** The frame 02 1A 01 05 22 read by a DHT22: 53.8 %RH and 26.1 C. *)
Example good_frame_reading :
  exists w',
    dht_read line_good dht22_on_2 no_reading stale power_on
    = Ok (true, mkOutput (tenths 261) (tenths 538), w')
    /\ console w' = [msg_reading 2610 5380 2; msg_frame DHT22 2 26 1 5 34 34 2].
Proof. eexists. split; simulate. Qed.

(** C4: a transmission that stops after 39 bits still yields a reading.
    The capture ends with [j = 39], one bit short of the frame, and
    [dht_read] returns [true] with 24 C and 40 %RH. *)
Theorem reading_from_39_bits :
  exists c w2 w',
    captures line_39_bits dht11_on_2 stale power_on c w2
    /\ cap_j c = 39
    /\ dht_read line_39_bits dht11_on_2 no_reading stale power_on
       = Ok (true, mkOutput (F32.of_int 24) (F32.of_int 40), w').
Proof.
  eexists _, _, _. split; [|split].
  - simulate_capture.
  - reflexivity.
  - simulate.
Qed.

(** C10: on a line that changes level every other poll the capture loop
    stores bit after bit until [j = 800], and the next write goes to
    [data[100]], one past the end of [int data[100]]. *)
Theorem square_wave_overruns_data :
  dht_read line_square dht11_on_2 no_reading stale power_on
  = Fault (OutOfBounds 100).
Proof. simulate. Qed.

Lemma checksum_decides_read_witness :
  exists c w2,
    captures line_corrupt dht22_on_2 stale power_on c w2
    /\ 39 <= cap_j c
    /\ raw c 4 <> (raw c 0 + raw c 1 + raw c 2 + raw c 3) mod 256
    /\ dht_read line_corrupt dht22_on_2 no_reading stale power_on
       = Ok (false, no_reading,
             os_printf (msg_checksum (cap_j c) (raw c 4)
                          ((raw c 0 + raw c 1 + raw c 2 + raw c 3) mod 256) 2)
               (os_printf (msg_frame DHT22 (raw c 0) (raw c 1) (raw c 2) (raw c 3)
                             (raw c 4)
                             ((raw c 0 + raw c 1 + raw c 2 + raw c 3) mod 256) 2) w2)).
Proof.
  assert (exists c w2, captures line_corrupt dht22_on_2 stale power_on c w2
                       /\ 39 <= cap_j c
                       /\ raw c 4 <> (raw c 0 + raw c 1 + raw c 2 + raw c 3) mod 256)
    as (c & w2 & Hcap & Hj & Hne).
  { eexists _, _. split; [|split].
    - simulate_capture.
    - vm_compute. discriminate.
    - vm_compute. discriminate. }
  exists c, w2. split; [exact Hcap|]. split; [exact Hj|]. split; [exact Hne|].
  exact (proj2 (proj2 (checksum_decides_read line_corrupt dht22_on_2 no_reading
                          stale power_on c w2 Hcap Hj)) Hne).
Defined.

Lemma dht22_scaling_witness :
  exists c w2 reading w',
    captures line_negative dht22_on_2 stale power_on c w2
    /\ dht_read line_negative dht22_on_2 no_reading stale power_on
       = Ok (true, reading, w')
    /\ humidity reading = tenths 400
    /\ SF_near_tenth (humidity reading) 400 = true
    /\ temperature reading = SFopp (tenths 10)
    /\ SF_near_tenth (temperature reading) (- 10) = true.
Proof.
  assert (exists c w2, captures line_negative dht22_on_2 stale power_on c w2
                       /\ 39 <= cap_j c
                       /\ raw c 4 = (raw c 0 + raw c 1 + raw c 2 + raw c 3) mod 256
                       /\ raw c 0 = 1 /\ raw c 1 = 144 /\ raw c 2 = 128 /\ raw c 3 = 10)
    as (c & w2 & Hcap & Hj & Hsum & H0 & H1 & H2 & H3).
  { eexists _, _. split.
    - simulate_capture.
    - split; [vm_compute; discriminate|]. repeat (split; [reflexivity|]). reflexivity. }
  destruct (dht22_scaling line_negative dht22_on_2 no_reading stale power_on c w2
              Hcap eq_refl Hj Hsum) as (reading & w' & Hread & Hh & Hhn & Ht & Htn).
  exists c, w2, reading, w'. rewrite H0, H1 in Hh, Hhn. rewrite H2, H3 in Ht, Htn.
  split; [exact Hcap|]. split; [exact Hread|]. split; [exact Hh|].
  split; [exact Hhn|]. split; [exact Ht|exact Htn].
Defined.

Lemma dht11_pass_through_witness :
  exists c w2 w',
    captures line_dht11 dht11_on_2 stale power_on c w2
    /\ take 5 (cap_data c) = [40; 0; 24; 0; (40 + 0 + 24 + 0) mod 256]
    /\ dht_read line_dht11 dht11_on_2 no_reading stale power_on
       = Ok (true, mkOutput (F32.of_int 24) (F32.of_int 40), w')
    /\ SF_is_int (F32.of_int 40) 40 = true
    /\ SF_is_int (F32.of_int 24) 24 = true.
Proof.
  assert (exists c w2, captures line_dht11 dht11_on_2 stale power_on c w2
                       /\ 39 <= cap_j c
                       /\ take 5 (cap_data c) = [40; 0; 24; 0; (40 + 0 + 24 + 0) mod 256])
    as (c & w2 & Hcap & Hj & Hraw).
  { eexists _, _. split; [|split].
    - simulate_capture.
    - vm_compute. discriminate.
    - reflexivity. }
  destruct (dht11_pass_through line_dht11 dht11_on_2 no_reading stale power_on c w2
              40 0 24 0 Hcap eq_refl Hj Hraw) as (w' & Hread & Hh & Ht).
  exists c, w2, w'. split; [exact Hcap|]. split; [exact Hraw|].
  split; [exact Hread|]. split; [exact Hh|exact Ht].
Defined.

Lemma too_few_bits_witness :
  exists c w2,
    captures line_16_bits dht22_on_2 stale power_on c w2
    /\ cap_j c = 16
    /\ dht_read line_16_bits dht22_on_2 no_reading stale power_on
       = Ok (false, no_reading, os_printf (msg_too_few (cap_j c) 2) w2).
Proof.
  assert (exists c w2, captures line_16_bits dht22_on_2 stale power_on c w2
                       /\ cap_j c = 16)
    as (c & w2 & Hcap & Hj).
  { eexists _, _. split.
    - simulate_capture.
    - reflexivity. }
  exists c, w2. split; [exact Hcap|]. split; [exact Hj|].
  apply (too_few_bits line_16_bits dht22_on_2 no_reading stale power_on c w2 Hcap).
  rewrite Hj. reflexivity.
Defined.

Lemma failed_read_keeps_output_witness :
  exists output' w',
    dht_read line_corrupt dht22_on_2 no_reading stale power_on = Ok (false, output', w')
    /\ output' = no_reading.
Proof.
  assert (exists output' w',
            dht_read line_corrupt dht22_on_2 no_reading stale power_on
            = Ok (false, output', w')) as (output' & w' & Hread).
  { eexists _, _. simulate. }
  exists output', w'. split; [exact Hread|].
  exact (proj1 (failed_read_keeps_output line_corrupt dht22_on_2 no_reading stale
                  power_on output' w' Hread)).
Defined.

Lemma wait_loop_bound_witness :
  dht_read line_stuck_high dht22_on_2 no_reading stale power_on
  = Ok (false, no_reading,
        os_printf (msg_timeout 2) (after_wait 32000 (handshake 2 power_on)))
  /\ dht_read line_stuck_low dht22_on_2 no_reading stale power_on
     = sample line_stuck_low dht22_on_2 no_reading stale
         (after_wait 0 (handshake 2 power_on)).
Proof.
  split.
  - apply (proj1 (wait_loop_bound line_stuck_high dht22_on_2 no_reading stale power_on)).
    intros k Hk. reflexivity.
  - apply (proj2 (wait_loop_bound line_stuck_low dht22_on_2 no_reading stale power_on)
             0%N).
    + reflexivity.
    + intros k' Hk'. destruct k'; discriminate Hk'.
    + reflexivity.
Defined.

Lemma capture_msb_first_witness :
  exists cap w',
    read_data line_good (S (Z.to_nat DHT_MAXTIMINGS)) 2 0 0 0 1 (initial_data stale)
              (after_wait 0 (handshake 2 power_on)) = Ok (cap, w')
    /\ cap_j cap
       = Z.of_nat (length (decoded_bits line_good 2 (after_wait 0 (handshake 2 power_on))))
    /\ forall k, (k < 5)%nat ->
         cap_data cap !! k
         = Some (msb_first
                   (octet k (decoded_bits line_good 2
                               (after_wait 0 (handshake 2 power_on))))).
Proof.
  assert (exists cap w',
            read_data line_good (S (Z.to_nat DHT_MAXTIMINGS)) 2 0 0 0 1
                      (initial_data stale) (after_wait 0 (handshake 2 power_on))
            = Ok (cap, w')) as (cap & w' & Hr).
  { eexists _, _. simulate. }
  exists cap, w'. split; [exact Hr|].
  destruct (capture_msb_first line_good 2 stale _ cap w' Hr) as (_ & _ & Hj & Hp & _).
  split; [exact Hj|exact Hp].
Defined.

(** ** What a call does to the world *)

Section Frame.

Variable line : N -> bool.

Lemma wait_for_drop_frame : forall fuel pin i w i' w',
  wait_for_drop line fuel pin i w = Ok (i', w') ->
  i <= i'
  /\ elapsed_us w' = elapsed_us w + (i' - i)
  /\ Z.of_N (polls w') = Z.of_N (polls w) + (i' - i) + 1
  /\ gpio_trace w' = gpio_trace w /\ console w' = console w.
Proof.
  induction fuel as [|fuel IH]; intros pin i w i' w' H; [done|].
  cbn [wait_for_drop] in H. unfold GPIO_INPUT_GET in H.
  destruct (negb _ && (i <? DHT_MAXCOUNT)).
  - apply IH in H as (Hi & He & Hp & Hg & Hc). cbn in He, Hp, Hg, Hc.
    repeat split; try done; lia.
  - injection H as <- <-. cbn. repeat split; try done; lia.
Qed.

Lemma count_high_time_frame : forall fuel pin ls counter w c w',
  count_high_time line fuel pin ls counter w = Ok (c, w') ->
  counter <= c
  /\ elapsed_us w' = elapsed_us w + (c - counter)
  /\ Z.of_N (polls w) + (c - counter) <= Z.of_N (polls w')
     <= Z.of_N (polls w) + (c - counter) + 1
  /\ gpio_trace w' = gpio_trace w /\ console w' = console w.
Proof.
  induction fuel as [|fuel IH]; intros pin ls counter w c w' H; [done|].
  cbn [count_high_time] in H. unfold GPIO_INPUT_GET in H.
  destruct (_ =? ls).
  - destruct (counter + 1 =? STALL).
    + injection H as <- <-. cbn. repeat split; try done; lia.
    + apply IH in H as (Hi & He & Hp & Hg & Hc). cbn in He, Hp, Hg, Hc.
      repeat split; try done; lia.
  - injection H as <- <-. cbn. repeat split; try done; lia.
Qed.

Lemma measure_frame pin ls w c ls' w' :
  measure line pin ls w = Ok (c, ls', w') ->
  0 <= c <= STALL
  /\ elapsed_us w' = elapsed_us w + c
  /\ Z.of_N (polls w) < Z.of_N (polls w') <= Z.of_N (polls w) + c + 2
  /\ gpio_trace w' = gpio_trace w /\ console w' = console w.
Proof.
  intros H. destruct (measure_ok line pin ls w) as (c1 & ls1 & w1 & H1 & Hc & _).
  rewrite H1 in H. injection H as <- <- <-.
  unfold measure, rbind in H1.
  destruct (count_high_time line _ pin ls 0 w) as [[c2 w2]|] eqn:E; [|done].
  unfold GPIO_INPUT_GET in H1. injection H1 as <- <- <-.
  apply count_high_time_frame in E as (_ & He & Hp & Hg & Hcon). cbn.
  repeat split; try done; lia.
Qed.

Lemma read_data_frame : forall fuel pin i j c0 ls data w cap w',
  0 <= i <= DHT_MAXTIMINGS ->
  read_data line fuel pin i j c0 ls data w = Ok (cap, w') ->
  elapsed_us w <= elapsed_us w' <= elapsed_us w + (DHT_MAXTIMINGS - i) * STALL
  /\ Z.of_N (polls w) <= Z.of_N (polls w')
     <= Z.of_N (polls w) + (DHT_MAXTIMINGS - i) * (STALL + 2)
  /\ gpio_trace w' = gpio_trace w /\ console w' = console w.
Proof.
  induction fuel as [|fuel IH]; intros pin i j c0 ls data w cap w' Hi H; [done|].
  cbn [read_data] in H. destruct (i <? DHT_MAXTIMINGS) eqn:Hlt.
  - apply Z.ltb_lt in Hlt.
    destruct (measure line pin ls w) as [[[c ls1] w1]|] eqn:Hm; [|done].
    cbn [rbind] in H.
    apply measure_frame in Hm as (Hc & He & Hp & Hg & Hcon).
    assert (forall j1 d1,
              read_data line fuel pin (i + 1) j1 c ls1 d1 w1 = Ok (cap, w') ->
              elapsed_us w <= elapsed_us w' <= elapsed_us w + (DHT_MAXTIMINGS - i) * STALL
              /\ Z.of_N (polls w) <= Z.of_N (polls w')
                 <= Z.of_N (polls w) + (DHT_MAXTIMINGS - i) * (STALL + 2)
              /\ gpio_trace w' = gpio_trace w /\ console w' = console w) as Hnext.
    { intros j1 d1 Hr. apply IH in Hr as (He' & Hp' & Hg' & Hc'); [|lia].
      unfold STALL in *. repeat split; try congruence; nia. }
    destruct (c =? STALL).
    + injection H as <- <-. unfold STALL in *. repeat split; try done; nia.
    + destruct (stores_bit i); [|eauto].
      unfold rbind in H. destruct (shove_bit c j data) as [[j1 d1]|]; [eauto|done].
  - injection H as <- <-. unfold STALL. repeat split; try done; lia.
Qed.

(** [data] keeps its length through the capture. *)
Lemma read_data_length : forall fuel pin i j c0 ls data w cap w',
  read_data line fuel pin i j c0 ls data w = Ok (cap, w') ->
  length (cap_data cap) = length data.
Proof.
  induction fuel as [|fuel IH]; intros pin i j c0 ls data w cap w' H; [done|].
  cbn [read_data] in H. destruct (i <? DHT_MAXTIMINGS); [|by injection H as <- <-].
  destruct (measure line pin ls w) as [[[c ls1] w1]|]; [|done]. cbn [rbind] in H.
  destruct (c =? STALL); [by injection H as <- <-|].
  destruct (stores_bit i); [|eauto].
  unfold rbind in H. destruct (shove_bit c j data) as [[j1 d1]|] eqn:Hs; [|done].
  apply shove_bit_Ok in Hs as (v & _ & _ & _ & ->).
  apply IH in H. rewrite H. apply length_insert.
Qed.

End Frame.

Lemma wait_for_drop_le (line : N -> bool) : forall fuel pin i w i' w',
  i <= DHT_MAXCOUNT ->
  wait_for_drop line fuel pin i w = Ok (i', w') -> i' <= DHT_MAXCOUNT.
Proof.
  induction fuel as [|fuel IH]; intros pin i w i' w' Hi H; [done|].
  cbn [wait_for_drop] in H. unfold GPIO_INPUT_GET in H.
  destruct (negb _ && (i <? DHT_MAXCOUNT)) eqn:E.
  - apply andb_true_iff in E as [_ E]. apply Z.ltb_lt in E.
    eapply IH; [|exact H]. lia.
  - by injection H as <- <-.
Qed.

Lemma handshake_frame (line : N -> bool) pin w :
  polls (handshake pin w) = polls w
  /\ elapsed_us (handshake pin w) = elapsed_us w + 270040
  /\ gpio_trace (handshake pin w) = handshake_trace pin (elapsed_us w) ++ gpio_trace w
  /\ console (handshake pin w) = console w.
Proof.
  cbn. repeat split; try lia. unfold handshake_trace. cbn.
  repeat match goal with
         | |- _ :: _ = _ :: _ => f_equal
         | |- (_, _) = (_, _) => f_equal
         end; lia.
Qed.

Lemma conclude_frame sensor output j data w flag output' w' :
  conclude sensor output j data w = (flag, output', w') ->
  polls w' = polls w /\ elapsed_us w' = elapsed_us w
  /\ gpio_trace w' = gpio_trace w
  /\ exists lines, console w' = lines ++ console w /\ (0 < length lines <= 2)%nat.
Proof.
  unfold conclude. destruct (39 <=? j).
  - destruct (byte_at data 4 =? _); intros [= <- <- <-]; cbn;
      (repeat split; try done); eexists [_; _]; (split; [reflexivity|cbn; lia]).
  - intros [= <- <- <-]; cbn. (repeat split; try done).
    eexists [_]; (split; [reflexivity|cbn; lia]).
Qed.

(** What every returning call has done to the world. *)
Lemma dht_read_frame (line : N -> bool) sensor output junk w flag output' w' :
  dht_read line sensor output junk w = Ok (flag, output', w') ->
  elapsed_us w + 270040 <= elapsed_us w' <= elapsed_us w + MAX_BLOCKING_US
  /\ Z.of_N (polls w) < Z.of_N (polls w') <= Z.of_N (polls w) + MAX_POLLS
  /\ gpio_trace w' = handshake_trace (pin sensor) (elapsed_us w) ++ gpio_trace w
  /\ exists lines, console w' = lines ++ console w /\ (0 < length lines <= 2)%nat.
Proof.
  unfold dht_read. intros H.
  destruct (handshake_frame line (pin sensor) w) as (Hp0 & He0 & Hg0 & Hc0).
  destruct (wait_for_drop line _ (pin sensor) 0 _) as [[i w1]|] eqn:Hw; [|done].
  cbn [rbind] in H.
  assert (0 <= DHT_MAXCOUNT) as H0 by (unfold DHT_MAXCOUNT; lia).
  pose proof (wait_for_drop_le line _ _ 0 _ _ _ H0 Hw) as Hle.
  apply wait_for_drop_frame in Hw as (Hi & He1 & Hp1 & Hg1 & Hc1).
  unfold MAX_BLOCKING_US, MAX_POLLS.
  destruct (i =? DHT_MAXCOUNT).
  - injection H as <- <- <-.
    cbn [os_printf elapsed_us polls gpio_trace console].
    unfold DHT_MAXCOUNT, DHT_MAXTIMINGS, STALL in *.
    split; [lia|]. split; [lia|]. split; [congruence|].
    exists [msg_timeout (pin sensor)]. split; [cbn; congruence|cbn; lia].
  - unfold sample, rbind in H.
    destruct (read_data line _ (pin sensor) 0 0 0 1 _ w1) as [[c w2]|] eqn:Hr; [|done].
    apply read_data_frame in Hr as (He2 & Hp2 & Hg2 & Hc2);
      [|unfold DHT_MAXTIMINGS; lia].
    destruct (conclude sensor output (cap_j c) (cap_data c) w2)
      as [[flag3 out3] w3] eqn:Hcon.
    injection H as <- <- <-.
    apply conclude_frame in Hcon as (Hp3 & He3 & Hg3 & lines & Hc3 & Hlen).
    unfold DHT_MAXCOUNT, DHT_MAXTIMINGS, STALL in *.
    split; [lia|]. split; [lia|]. split; [congruence|].
    exists lines. split; [congruence|done].
Qed.

(** ** What a successful call implies *)

Lemma dht_read_true_inv (line : N -> bool) sensor output junk w reading w' :
  dht_read line sensor output junk w = Ok (true, reading, w') ->
  exists c w2,
    captures line sensor junk w c w2
    /\ 39 <= cap_j c
    /\ raw c 4 = (raw c 0 + raw c 1 + raw c 2 + raw c 3) mod 256
    /\ reading = mkOutput (scale_temperature (type sensor) (cap_data c))
                          (scale_humidity (type sensor) (cap_data c)).
Proof.
  unfold dht_read. intros H.
  destruct (wait_for_drop line _ (pin sensor) 0 _) as [[i w1]|] eqn:Hw; [|done].
  cbn [rbind] in H. destruct (i =? DHT_MAXCOUNT) eqn:Hi; [done|].
  apply Z.eqb_neq in Hi. unfold sample, rbind in H.
  destruct (read_data line _ (pin sensor) 0 0 0 1 _ w1) as [[c w2]|] eqn:Hr; [|done].
  exists c, w2. split; [by exists i, w1|].
  unfold conclude in H. destruct (39 <=? cap_j c) eqn:Hj; [|done].
  apply Z.leb_le in Hj. split; [done|]. rewrite checksum_mod in H.
  fold (raw c 0) (raw c 1) (raw c 2) (raw c 3) (raw c 4) in H.
  destruct (raw c 4 =? _) eqn:Hs; [|done]. apply Z.eqb_eq in Hs.
  split; [done|]. by injection H as <- _.
Qed.

(** ** When the capture loop leaves [data] *)

Lemma shove_bit_out_of_range (counter j : Z) (data : list Z) :
  0 <= j -> data !! Z.to_nat (j / 8) = None ->
  shove_bit counter j data = Fault (OutOfBounds (j / 8)).
Proof.
  intros Hj Hnone. unfold shove_bit, update_at. rewrite Z.quot_div_nonneg by lia.
  destruct (j / 8 <? 0); [done|]. by rewrite Hnone.
Qed.

Section Room.

Variable line : N -> bool.

(** The loop returns when the bits still to come fit into [data], and
    stops at [data[100]] when they do not. *)
Lemma read_data_room : forall fuel pin i j c0 ls data w,
  (Z.to_nat (DHT_MAXTIMINGS - i) < fuel)%nat ->
  0 <= j -> length data = Z.to_nat DATA_LEN ->
  let n := Z.of_nat (length (data_pulses i
             (pulse_widths line (Z.to_nat (DHT_MAXTIMINGS - i)) pin ls w))) in
  (j + n <= 800 -> exists cap w', read_data line fuel pin i j c0 ls data w = Ok (cap, w'))
  /\ (j <= 800 < j + n ->
      read_data line fuel pin i j c0 ls data w = Fault (OutOfBounds 100)).
Proof.
  induction fuel as [|fuel IH]; intros pin i j c0 ls data w Hfuel Hj Hlen; [lia|].
  cbn [read_data]. destruct (i <? DHT_MAXTIMINGS) eqn:Hi.
  - apply Z.ltb_lt in Hi.
    replace (Z.to_nat (DHT_MAXTIMINGS - i))
      with (S (Z.to_nat (DHT_MAXTIMINGS - (i + 1)))) by lia.
    cbn [pulse_widths].
    destruct (measure_ok line pin ls w) as (c & ls1 & w1 & -> & Hc & _).
    cbn [rbind]. destruct (c =? STALL).
    { cbn. split; [eauto|lia]. }
    cbn [data_pulses]. destruct (stores_bit i).
    + cbn [length]. destruct (decide (j < 800)) as [Hlt|Hge].
      * destruct (lookup_lt_is_Some_2 data (Z.to_nat (j / 8))) as [v Hv].
        { rewrite Hlen. unfold DATA_LEN. Z.div_mod_to_equations. lia. }
        rewrite (shove_bit_in_range c j data v Hj Hv). cbn [rbind].
        specialize (IH pin (i + 1) (j + 1) c ls1
                      (<[Z.to_nat (j / 8) := wrap32 (2 * v) + Z.b2z (bit_of c)]> data) w1).
        cbn zeta in IH. destruct IH as [IH1 IH2]; [lia|lia|by rewrite length_insert|].
        split; intros H; [apply IH1|apply IH2]; lia.
      * split; [lia|]. intros [Hle _]. assert (j = 800) as -> by lia.
        rewrite shove_bit_out_of_range; [done|lia|].
        apply lookup_ge_None. rewrite Hlen. done.
    + specialize (IH pin (i + 1) j c ls1 data w1). cbn zeta in IH.
      destruct IH as [IH1 IH2]; [lia|lia|done|]. done.
  - apply Z.ltb_ge in Hi.
    replace (Z.to_nat (DHT_MAXTIMINGS - i)) with 0%nat by lia. cbn.
    split; [eauto|lia].
Qed.

(** More than 800 bits are stored exactly when the capture completes more
    than 1604 transitions. *)
Lemma data_pulses_overflow (ws : list Z) :
  800 < Z.of_nat (length (data_pulses 0 ws)) <-> (1604 < length ws)%nat.
Proof.
  pose proof (data_pulses_lookup ws 0 800 ltac:(lia)) as H.
  change (next_stored 0 + 2 * 800)%nat with 1604%nat in H.
  rewrite <- (lookup_lt_is_Some ws 1604), <- H, lookup_lt_is_Some. lia.
Qed.

End Room.

(** ** The stale stack under [data] *)

Lemma shove_bit_same (counter j : Z) (d1 d2 : list Z) :
  0 <= j -> same_frame d1 d2 ->
  match shove_bit counter j d1, shove_bit counter j d2 with
  | Ok (j1, d1'), Ok (j2, d2') => j1 = j2 /\ same_frame d1' d2'
  | Fault e1, Fault e2 => e1 = e2
  | _, _ => False
  end.
Proof.
  intros Hj [Hlen Hsame].
  destruct (d1 !! Z.to_nat (j / 8)) as [v1|] eqn:H1.
  - destruct (lookup_lt_is_Some_2 d2 (Z.to_nat (j / 8))) as [v2 H2].
    { rewrite <- Hlen. eapply lookup_lt_Some; eauto. }
    rewrite (shove_bit_in_range counter j d1 v1 Hj H1),
            (shove_bit_in_range counter j d2 v2 Hj H2).
    split; [done|]. split; [by rewrite !length_insert|].
    intros k Hk. destruct (decide (k = Z.to_nat (j / 8))) as [->|Hne].
    + specialize (Hsame _ Hk). rewrite H1, H2 in Hsame. injection Hsame as ->.
      rewrite !list_lookup_insert_eq; [done| |]; eapply lookup_lt_Some; eauto.
    + rewrite !list_lookup_insert_ne by done. auto.
  - assert (d2 !! Z.to_nat (j / 8) = None) as H2.
    { apply lookup_ge_None. rewrite <- Hlen. by apply lookup_ge_None. }
    by rewrite !shove_bit_out_of_range.
Qed.

Lemma read_data_same (line : N -> bool) : forall fuel pin i j c0 ls d1 d2 w,
  0 <= j -> same_frame d1 d2 ->
  same_capture (read_data line fuel pin i j c0 ls d1 w)
               (read_data line fuel pin i j c0 ls d2 w).
Proof.
  induction fuel as [|fuel IH]; intros pin i j c0 ls d1 d2 w Hj Hsame; [done|].
  cbn [read_data]. destruct (i <? DHT_MAXTIMINGS); [|by cbn].
  destruct (measure line pin ls w) as [[[c ls1] w1]|]; [|done]. cbn [rbind].
  destruct (c =? STALL); [by cbn|].
  destruct (stores_bit i); [|by apply IH].
  pose proof (shove_bit_same c j d1 d2 Hj Hsame) as Hs.
  destruct (shove_bit c j d1) as [[j1 e1]|] eqn:E1,
           (shove_bit c j d2) as [[j2 e2]|]; cbn [rbind]; try done.
  destruct Hs as [<- Hs]. apply IH; [|done].
  apply shove_bit_Ok in E1 as (_ & _ & _ & -> & _). lia.
Qed.

Lemma initial_data_same (junk1 junk2 : Z -> Z) :
  same_frame (initial_data junk1) (initial_data junk2).
Proof.
  split; [by rewrite !initial_data_length|].
  intros k Hk. by rewrite !initial_data_lookup.
Qed.

Lemma conclude_same sensor output j d1 d2 w :
  (forall k, (k < 5)%nat -> d1 !! k = d2 !! k) ->
  conclude sensor output j d1 w = conclude sensor output j d2 w.
Proof.
  intros Hsame.
  assert (forall k, (k < 5)%nat -> byte_at d1 k = byte_at d2 k) as Hb.
  { intros k Hk. unfold byte_at. by rewrite Hsame. }
  unfold conclude, scale_temperature, scale_humidity.
  rewrite !(Hb 0%nat), !(Hb 1%nat), !(Hb 2%nat), !(Hb 3%nat), !(Hb 4%nat) by lia.
  reflexivity.
Qed.

(** ** Measuring a pulse train *)

Section Train.

Variable line : N -> bool.

Lemma holds_spec p lvl c :
  holds line p lvl c = true -> forall k, (k < c)%N -> line (p + k)%N = lvl.
Proof.
  unfold holds. rewrite forallb_forall. intros H k Hk.
  specialize (H (Z.of_N k)). rewrite N2Z.id in H.
  apply Bool.eqb_prop, H, list_elem_of_In, elem_of_seqZ. lia.
Qed.

Lemma trainb_train (cs : list N) : forall p lvl,
  trainb line p lvl cs = true -> train line p lvl cs.
Proof.
  induction cs as [|c cs IH]; intros p lvl H; cbn in *.
  - intros k Hk. by apply holds_spec with (c := 1000%N).
  - rewrite !andb_true_iff in H. destruct H as [[[[Hc Hh] H1] H2] Ht].
    apply N.ltb_lt in Hc. split; [done|]. split; [|by apply IH].
    split; [by apply holds_spec|]. split; by apply Bool.eqb_prop.
Qed.

Lemma count_high_time_run (n : nat) : forall fuel pin lvl counter w,
  (forall k, (k < N.of_nat n)%N -> line (polls w + k) = lvl) ->
  counter + Z.of_nat n < STALL ->
  count_high_time line (n + fuel) pin (Z.b2z lvl) counter w
  = count_high_time line fuel pin (Z.b2z lvl) (counter + Z.of_nat n)
      (tick (N.of_nat n) w).
Proof.
  induction n as [|n IH]; intros fuel pin lvl counter w Hrun Hlt.
  - cbn. f_equal; [lia|]. destruct w; unfold tick; cbn. f_equal; lia.
  - cbn [Nat.add count_high_time]. unfold GPIO_INPUT_GET.
    pose proof (Hrun 0%N ltac:(lia)) as H0. rewrite N.add_0_r in H0. rewrite H0.
    replace ((if lvl then 1 else 0) =? Z.b2z lvl) with true by (by destruct lvl).
    replace (counter + 1 =? STALL) with false by (symmetry; apply Z.eqb_neq; lia).
    rewrite IH.
    + f_equal; [lia|]. unfold tick, os_delay_us; cbn. f_equal; lia.
    + intros k Hk. cbn.
      replace (N.succ (polls w) + k)%N with (polls w + N.succ k)%N by lia.
      apply Hrun. lia.
    + lia.
Qed.

Lemma measure_pulse pin lvl (c : N) w :
  (c < 1000)%N -> pulse line (polls w) lvl c ->
  measure line pin (Z.b2z lvl) w
  = Ok (Z.of_N c, Z.b2z (negb lvl), after_measure c w).
Proof.
  intros Hc (Hrun & H1 & H2). unfold measure.
  replace (Z.to_nat STALL) with (N.to_nat c + S (Z.to_nat STALL - N.to_nat c - 1))%nat
    by (unfold STALL; lia).
  rewrite count_high_time_run;
    [|intros k Hk; apply Hrun; lia|unfold STALL; lia].
  cbn [count_high_time]. unfold GPIO_INPUT_GET. cbn [polls tick].
  rewrite N2Nat.id, H1.
  replace ((if negb lvl then 1 else 0) =? Z.b2z lvl) with false by (by destruct lvl).
  cbn [rbind polls]. replace (N.succ (polls w + c)) with (polls w + c + 1)%N by lia.
  rewrite H2. unfold after_measure. cbn.
  replace (0 + Z.of_nat (N.to_nat c)) with (Z.of_N c) by lia.
  replace (N.succ (polls w + c + 1)) with (polls w + c + 2)%N by lia.
  by destruct lvl.
Qed.

Lemma measure_rests pin lvl w :
  rests line (polls w) lvl ->
  exists ls' w', measure line pin (Z.b2z lvl) w = Ok (STALL, ls', w')
    /\ polls w' = (polls w + 1001)%N /\ elapsed_us w' = elapsed_us w + 1000.
Proof.
  intros Hrest. unfold measure.
  replace (Z.to_nat STALL) with (999 + 1)%nat by (unfold STALL; lia).
  rewrite count_high_time_run;
    [|intros k Hk; apply Hrest; lia|unfold STALL; lia].
  cbn [count_high_time]. unfold GPIO_INPUT_GET. cbn [polls tick].
  change (N.of_nat 999) with 999%N. change (0 + Z.of_nat 999 + 1) with STALL.
  rewrite (Hrest 999%N) by lia.
  replace ((if lvl then 1 else 0) =? Z.b2z lvl) with true by (by destruct lvl).
  rewrite Z.eqb_refl. cbn [rbind].
  eexists _, _. split; [reflexivity|]. cbn. split; lia.
Qed.

Lemma pulse_widths_train (n : nat) : forall pin lvl (cs : list N) w,
  train line (polls w) lvl cs ->
  pulse_widths line n pin (Z.b2z lvl) w = Z.of_N <$> take n cs.
Proof.
  induction n as [|n IH]; intros pin lvl cs w Ht; [done|].
  cbn [pulse_widths]. destruct cs as [|c cs]; cbn in Ht.
  - destruct (measure_rests pin lvl w Ht) as (ls' & w' & -> & _).
    by rewrite Z.eqb_refl.
  - destruct Ht as (Hc & Hp & Ht). rewrite (measure_pulse pin lvl c w Hc Hp).
    replace (Z.of_N c =? STALL) with false
      by (symmetry; apply Z.eqb_neq; unfold STALL; lia).
    cbn [take fmap list_fmap]. f_equal. by apply IH.
Qed.

End Train.

(** ** From a pulse train to the frame *)

Lemma byte_bits_checked : all_below 256 byte_bits_ok = true.
Proof. vm_cast_no_check (eq_refl true). Qed.

Lemma msb_first_byte_bits (b : Z) : 0 <= b < 256 -> msb_first (byte_bits b) = b.
Proof.
  intros Hb. apply Z.eqb_eq. apply (all_below_spec _ _ _ byte_bits_checked Hb).
Qed.

Lemma data_pulses_short (ws : list Z) :
  (length (data_pulses 0 ws) <= 800)%nat -> (length ws <= 1604)%nat.
Proof.
  intros H. pose proof (data_pulses_overflow ws) as Ho. lia.
Qed.

Lemma train_captures (line : N -> bool) sensor junk w (cs : list N) :
  line (polls (handshake (pin sensor) w)) = false ->
  train line (polls (handshake (pin sensor) w) + 1) true cs ->
  (length cs <= 1604)%nat ->
  let bits := bit_of <$> data_pulses 0 (Z.of_N <$> cs) in
  exists c w2,
    captures line sensor junk w c w2
    /\ cap_j c = Z.of_nat (length bits)
    /\ packed bits (cap_data c).
Proof.
  intros Hlow Htrain Hlen bits. set (w0 := handshake (pin sensor) w) in *.
  assert (wait_for_drop line (S (Z.to_nat DHT_MAXCOUNT)) (pin sensor) 0 w0
          = Ok (0, after_wait 0 w0)) as Hw.
  { apply (wait_for_drop_low line _ _ _ 0%N); [lia|intros k' Hk'; lia| |lia].
    by rewrite N.add_0_r. }
  set (w1 := after_wait 0 w0) in *.
  assert (pulse_widths line (Z.to_nat DHT_MAXTIMINGS) (pin sensor) 1 w1
          = Z.of_N <$> cs) as Hws.
  { change 1 with (Z.b2z true). rewrite (pulse_widths_train line _ _ _ cs).
    - rewrite take_ge; [done|]. unfold DHT_MAXTIMINGS. lia.
    - replace (polls w1) with (polls w0 + 1)%N; [done|]. subst w1. cbn. lia. }
  destruct (read_data_room line (S (Z.to_nat DHT_MAXTIMINGS)) (pin sensor) 0 0 0 1
              (initial_data junk) w1) as [Hroom _];
    [lia|lia|apply initial_data_length|].
  destruct Hroom as (c & w2 & Hr).
  { rewrite Z.sub_0_r, Hws.
    pose proof (data_pulses_overflow (Z.of_N <$> cs)) as Ho.
    rewrite length_fmap in Ho. lia. }
  exists c, w2. split.
  { exists 0, w1. split; [done|]. split; [unfold DHT_MAXCOUNT; lia|done]. }
  apply read_data_packed in Hr as (Hj & Hp & _).
  unfold decoded_bits in Hj, Hp. rewrite Hws in Hj, Hp. done.
Qed.

(** ** The place of every stored bit *)

(** Shifting a word left moves each of its low bits one place up, whatever
    the 32-bit wrap does to the high ones. *)
Lemma testbit_shifted (v : Z) (b : bool) (s : Z) :
  0 <= s < 31 -> Z.testbit (wrap32 (2 * v) + Z.b2z b) (s + 1) = Z.testbit v s.
Proof.
  intros Hs.
  rewrite <- (Z.mod_pow2_bits_low (wrap32 (2 * v) + Z.b2z b) 32) by lia.
  replace ((wrap32 (2 * v) + Z.b2z b) mod 2 ^ 32) with ((2 * v + Z.b2z b) mod 2 ^ 32).
  - rewrite Z.mod_pow2_bits_low by lia.
    replace (s + 1) with (Z.succ s) by lia. apply Z.testbit_succ_r. lia.
  - unfold wrap32. change (2 ^ 31) with 2147483648. change (2 ^ 32) with 4294967296.
    destruct b; cbn [Z.b2z]; Z.div_mod_to_equations; lia.
Qed.

Lemma slot_same_word (n p : nat) :
  (p < n)%nat -> (p / 8 = n / 8)%nat ->
  slot (Z.of_nat (n + 1)) p = slot (Z.of_nat n) p + 1 /\ 0 <= slot (Z.of_nat n) p < 7.
Proof.
  intros Hp Hw. apply (f_equal Z.of_nat) in Hw. rewrite !Nat2Z.inj_div in Hw.
  change (Z.of_nat 8) with 8 in Hw. unfold slot. Z.div_mod_to_equations. lia.
Qed.

Lemma slot_earlier_word (n p : nat) :
  (p < n)%nat -> (p / 8 <> n / 8)%nat ->
  slot (Z.of_nat (n + 1)) p = slot (Z.of_nat n) p.
Proof.
  intros Hp Hw.
  assert (Z.of_nat p / 8 <> Z.of_nat n / 8) as Hz.
  { intros E. apply Hw, Nat2Z.inj. by rewrite !Nat2Z.inj_div. }
  unfold slot. Z.div_mod_to_equations. lia.
Qed.

Lemma slot_last (n : nat) : slot (Z.of_nat (n + 1)) n = 0.
Proof. unfold slot. Z.div_mod_to_equations. lia. Qed.

Lemma slot_range (j : Z) (p : nat) : Z.of_nat p < j -> 0 <= slot j p <= 7.
Proof. intros Hp. unfold slot. Z.div_mod_to_equations. lia. Qed.

Lemma shove_bit_stored (counter j : Z) (bits : list bool) (data : list Z)
    (j' : Z) (data' : list Z) :
  j = Z.of_nat (length bits) -> stored bits data ->
  shove_bit counter j data = Ok (j', data') ->
  stored (bits ++ [bit_of counter]) data'.
Proof.
  intros Hj Hst Hs. apply shove_bit_Ok in Hs as (v & _ & Hv & _ & ->).
  assert (Z.to_nat (Z.quot j 8) = (length bits / 8)%nat) as Hk.
  { rewrite Z.quot_div_nonneg, Hj by lia.
    change 8 with (Z.of_nat 8). by rewrite <- Nat2Z.inj_div, Nat2Z.id. }
  rewrite Hk in *. pose proof (lookup_lt_Some _ _ _ Hv) as Hlen.
  intros p b Hp. rewrite length_app. cbn [length].
  destruct (decide (p < length bits)%nat) as [Hlt|Hge].
  - rewrite lookup_app_l in Hp by done. destruct (Hst p b Hp) as (word & Hw & Ht).
    destruct (decide (p / 8 = length bits / 8)%nat) as [Heq|Hne].
    + destruct (slot_same_word _ _ Hlt Heq) as [-> Hs].
      rewrite Heq in *. rewrite Hv in Hw. injection Hw as <-.
      exists (wrap32 (2 * v) + Z.b2z (bit_of counter)).
      split; [by apply list_lookup_insert_eq|].
      rewrite testbit_shifted by lia. done.
    + rewrite (slot_earlier_word _ _ Hlt Hne). exists word.
      split; [|done]. by rewrite list_lookup_insert_ne.
  - pose proof (lookup_lt_Some _ _ _ Hp) as Hlast.
    rewrite length_app in Hlast. cbn [length] in Hlast.
    assert (p = length bits) as -> by lia.
    rewrite lookup_app_r, Nat.sub_diag in Hp by lia. injection Hp as <-.
    exists (wrap32 (2 * v) + Z.b2z (bit_of counter)).
    split; [by apply list_lookup_insert_eq|].
    rewrite slot_last. apply testbit_appended.
Qed.

Lemma shove_all_stored (cs : list Z) : forall j bits data j' data',
  j = Z.of_nat (length bits) -> stored bits data ->
  shove_all cs j data = Ok (j', data') ->
  stored (bits ++ (bit_of <$> cs)) data'.
Proof.
  induction cs as [|c cs IH]; intros j bits data j' data' Hj Hst Hs.
  - cbn in Hs. injection Hs as <- <-. by rewrite app_nil_r.
  - cbn [shove_all] in Hs.
    destruct (shove_bit c j data) as [[j1 d1]|] eqn:Hb; [|done]. cbn [rbind] in Hs.
    pose proof (shove_bit_stored _ _ _ _ _ _ Hj Hst Hb) as Hst1.
    apply shove_bit_Ok in Hb as (_ & _ & _ & -> & _).
    rewrite fmap_cons, cons_middle, app_assoc.
    apply (IH (j + 1) _ d1 j' data'); [|done|done].
    rewrite length_app. cbn [length]. lia.
Qed.

(** A capture of a pulse train that fits into [data] returns, with every
    bit at its place. *)
Lemma train_stored (line : N -> bool) pin junk w (cs : list N) :
  train line (polls w) true cs ->
  (length cs <= 1604)%nat ->
  let bits := bit_of <$> data_pulses 0 (Z.of_N <$> cs) in
  pulse_widths line (Z.to_nat DHT_MAXTIMINGS) pin 1 w = Z.of_N <$> cs
  /\ exists cap w',
       read_data line (S (Z.to_nat DHT_MAXTIMINGS)) pin 0 0 0 1 (initial_data junk) w
       = Ok (cap, w')
       /\ cap_j cap = Z.of_nat (length bits)
       /\ stored bits (cap_data cap).
Proof.
  intros Ht Hlen bits.
  assert (pulse_widths line (Z.to_nat DHT_MAXTIMINGS) pin 1 w = Z.of_N <$> cs) as Hws.
  { change 1 with (Z.b2z true).
    rewrite (pulse_widths_train line _ pin true cs w Ht), take_ge; [done|].
    unfold DHT_MAXTIMINGS. lia. }
  split; [done|].
  destruct (read_data_room line (S (Z.to_nat DHT_MAXTIMINGS)) pin 0 0 0 1
              (initial_data junk) w) as [Hok _];
    [lia|lia|apply initial_data_length|].
  rewrite Z.sub_0_r, Hws in Hok.
  destruct Hok as (cap & w' & Hr).
  { pose proof (data_pulses_overflow (Z.of_N <$> cs)) as Ho.
    rewrite length_fmap in Ho. lia. }
  exists cap, w'. split; [done|].
  apply read_data_shove in Hr as (Hs & _ & _). rewrite Z.sub_0_r, Hws in Hs.
  pose proof (shove_all_packed _ _ [] _ _ _ eq_refl (initial_data_packed junk) Hs)
    as (Hj & _ & _).
  split; [done|].
  apply (shove_all_stored _ 0 [] (initial_data junk) (cap_j cap) (cap_data cap) eq_refl);
    [|done].
  intros p b Hp. done.
Qed.

(** The same for a whole call: the line answers the handshake at the
    first poll and then shows the pulse train. *)
Lemma train_captures_stored (line : N -> bool) sensor junk w (cs : list N) :
  line (polls (handshake (pin sensor) w)) = false ->
  train line (polls (handshake (pin sensor) w) + 1) true cs ->
  (length cs <= 1604)%nat ->
  let bits := bit_of <$> data_pulses 0 (Z.of_N <$> cs) in
  exists c w2,
    captures line sensor junk w c w2
    /\ cap_j c = Z.of_nat (length bits)
    /\ packed bits (cap_data c)
    /\ stored bits (cap_data c)
    /\ length (cap_data c) = 100%nat.
Proof.
  intros Hlow Htrain Hlen bits. set (w0 := handshake (pin sensor) w) in *.
  assert (wait_for_drop line (S (Z.to_nat DHT_MAXCOUNT)) (pin sensor) 0 w0
          = Ok (0, after_wait 0 w0)) as Hw.
  { apply (wait_for_drop_low line _ _ _ 0%N); [lia|intros k' Hk'; lia| |lia].
    by rewrite N.add_0_r. }
  assert (train line (polls (after_wait 0 w0)) true cs) as Ht1.
  { replace (polls (after_wait 0 w0)) with (polls w0 + 1)%N; [done|]. cbn. lia. }
  destruct (train_stored line (pin sensor) junk (after_wait 0 w0) cs Ht1 Hlen)
    as (Hws & c & w2 & Hr & Hj & Hst).
  exists c, w2. split.
  { exists 0, (after_wait 0 w0). split; [done|]. split; [unfold DHT_MAXCOUNT; lia|done]. }
  split; [done|].
  apply read_data_packed in Hr as (_ & Hp & Hl & _).
  unfold decoded_bits in Hp. rewrite Hws in Hp. done.
Qed.

(** C7: every selected transition appends the bit its duration decides.
    On a line that shows pulses of the widths [cs] and then rests, the
    capture measures these widths and returns; for every [p], the width
    [c] at the capture index [4 + 2p] is that of a stored bit, and this bit
    (at its place in [data[p / 8]], one of the bits 0..7, see [slot]) is 1
    exactly when [c] is greater than [DHT_BREAKTIME] = 20: a duration of
    20 stores 0 and a duration of 21 stores 1. *)
Theorem stored_bit_threshold (line : N -> bool) pin junk w (cs : list N) :
  train line (polls w) true cs ->
  (length cs <= 1604)%nat ->
  pulse_widths line (Z.to_nat DHT_MAXTIMINGS) pin 1 w = Z.of_N <$> cs
  /\ exists cap w',
       read_data line (S (Z.to_nat DHT_MAXTIMINGS)) pin 0 0 0 1 (initial_data junk) w
       = Ok (cap, w')
       /\ forall (p : nat) (c : N),
            cs !! (4 + 2 * p)%nat = Some c ->
            stores_bit (4 + 2 * Z.of_nat p) = true
            /\ Z.of_nat p < cap_j cap
            /\ 0 <= slot (cap_j cap) p <= 7
            /\ exists word,
                 cap_data cap !! (p / 8)%nat = Some word
                 /\ Z.testbit word (slot (cap_j cap) p) = (DHT_BREAKTIME <? Z.of_N c)
                 /\ (Z.testbit word (slot (cap_j cap) p) = true <-> (20 < c)%N)
                 /\ (c = 20%N -> Z.testbit word (slot (cap_j cap) p) = false)
                 /\ (c = 21%N -> Z.testbit word (slot (cap_j cap) p) = true).
Proof.
  intros Ht Hlen.
  destruct (train_stored line pin junk w cs Ht Hlen) as (Hws & cap & w' & Hr & Hj & Hst).
  split; [done|]. exists cap, w'. split; [done|]. intros p c Hc.
  split; [apply stores_bit_spec; by exists p|].
  assert ((bit_of <$> data_pulses 0 (Z.of_N <$> cs)) !! p = Some (bit_of (Z.of_N c)))
    as Hbit.
  { rewrite list_lookup_fmap, data_pulses_lookup, list_lookup_fmap by lia.
    change (next_stored 0) with 4%nat. by rewrite Hc. }
  assert (Z.of_nat p < cap_j cap) as Hlt by (apply lookup_lt_Some in Hbit; lia).
  split; [done|]. split; [by apply slot_range|].
  destruct (Hst p _ Hbit) as (word & Hw & Hb). rewrite <- Hj in Hb.
  exists word. split; [done|]. unfold bit_of in Hb. rewrite Hb.
  split; [done|]. unfold DHT_BREAKTIME.
  split; [rewrite Z.ltb_lt; lia|]. split; intros ->; reflexivity.
Qed.

Lemma stored_bit_threshold_witness :
  train line_threshold 1 true threshold_widths
  /\ exists cap w',
       read_data line_threshold (S (Z.to_nat DHT_MAXTIMINGS)) 2 0 0 0 1
                 (initial_data stale) (after_wait 0 (handshake 2 power_on))
       = Ok (cap, w')
       /\ cap_j cap = 2
       /\ cap_data cap !! 0%nat = Some 1
       /\ (exists word, cap_data cap !! 0%nat = Some word
                        /\ Z.testbit word (slot (cap_j cap) 0) = false)
       /\ (exists word, cap_data cap !! 0%nat = Some word
                        /\ Z.testbit word (slot (cap_j cap) 1) = true).
Proof.
  assert (train line_threshold 1 true threshold_widths) as Ht
    by (apply trainb_train; vm_compute; reflexivity).
  split; [exact Ht|].
  assert (exists cap w',
            read_data line_threshold (S (Z.to_nat DHT_MAXTIMINGS)) 2 0 0 0 1
                      (initial_data stale) (after_wait 0 (handshake 2 power_on))
            = Ok (cap, w')
            /\ cap_j cap = 2 /\ cap_data cap !! 0%nat = Some 1)
    as (cap0 & w0 & Hr0 & Hj0 & Hd0).
  { eexists _, _. split; [vm_compute; reflexivity|]. split; reflexivity. }
  destruct (stored_bit_threshold line_threshold 2 stale
              (after_wait 0 (handshake 2 power_on)) threshold_widths Ht)
    as (_ & cap & w' & Hr & Hbits).
  { apply Nat.leb_le. reflexivity. }
  rewrite Hr0 in Hr. injection Hr as <- <-.
  exists cap0, w0. split; [exact Hr0|]. split; [exact Hj0|]. split; [exact Hd0|].
  split.
  - destruct (Hbits 0%nat 20%N eq_refl) as (_ & _ & _ & word & Hw & _ & _ & H20 & _).
    exists word. split; [exact Hw|]. apply H20. reflexivity.
  - destruct (Hbits 1%nat 21%N eq_refl) as (_ & _ & _ & word & Hw & _ & _ & _ & H21).
    exists word. split; [exact Hw|]. apply H21. reflexivity.
Defined.

(** ** [dht_float2String] *)

Lemma format_checked : all_words 256 format_ok = true.
Proof. vm_cast_no_check (eq_refl true). Qed.

Lemma format_negative_checked : all_words 128 format_negative_ok = true.
Proof. vm_cast_no_check (eq_refl true). Qed.

Lemma format_integer_checked : all_below 256 format_integer_ok = true.
Proof. vm_cast_no_check (eq_refl true). Qed.

Lemma dec_negative (k : Z) : 0 < k -> dec (- k) = "-" +:+ dec k.
Proof. intros Hk. destruct k as [|p|p]; try lia. reflexivity. Qed.

Lemma format_tenths_facts (n : Z) :
  0 <= n < 65536 ->
  F32.to_int (tenths n) = n / 10
  /\ 0 <= hundredths (tenths n)
  /\ 10 * (n mod 10) - 1 <= hundredths (tenths n) <= 10 * (n mod 10)
  /\ (String.length (dht_float2String (tenths n)) <= 7)%nat.
Proof.
  intros Hn. pose proof (all_words_spec _ _ _ format_checked Hn) as H.
  unfold format_ok in H. cbn zeta in H.
  rewrite !andb_true_iff, !Z.leb_le, Z.eqb_eq, Nat.leb_le in H.
  destruct H as [[[[H1 H2] H3] H4] H5]. unfold dht_float2String. done.
Qed.

Lemma format_negative_facts (n : Z) :
  0 <= n < 32768 ->
  F32.to_int (SFopp (tenths n)) = - (n / 10)
  /\ hundredths (SFopp (tenths n)) <= 0
  /\ - (10 * (n mod 10)) <= hundredths (SFopp (tenths n)) <= - (10 * (n mod 10) - 1)
  /\ (String.length (dht_float2String (SFopp (tenths n))) <= 9)%nat.
Proof.
  intros Hn. pose proof (all_words_spec _ _ _ format_negative_checked Hn) as H.
  unfold format_negative_ok in H. cbn zeta in H.
  rewrite !andb_true_iff, !Z.leb_le, Z.eqb_eq, Nat.leb_le in H.
  destruct H as [[[[H1 H2] H3] H4] H5]. unfold dht_float2String. done.
Qed.

Lemma format_integer_fact (h : Z) :
  0 <= h < 256 ->
  dht_float2String (F32.of_int h) = dec h +:+ ".0"
  /\ (String.length (dht_float2String (F32.of_int h)) <= 5)%nat.
Proof.
  intros Hh. pose proof (all_below_spec _ _ _ format_integer_checked Hh) as H.
  unfold format_integer_ok in H. apply andb_true_iff in H as [H1 H2].
  apply String.eqb_eq in H1. apply Nat.leb_le in H2. rewrite H1. done.
Qed.

Lemma report_checked : all_words 256 report_ok = true.
Proof. vm_cast_no_check (eq_refl true). Qed.

Lemma report_integer_checked : all_below 256 report_integer_ok = true.
Proof. vm_cast_no_check (eq_refl true). Qed.

Lemma report_facts (n : Z) :
  0 <= n < 65536 ->
  10 * n - 1 <= times_100 (tenths n) <= 10 * n
  /\ times_100 (SFopp (tenths n)) = - times_100 (tenths n).
Proof.
  intros Hn. pose proof (all_words_spec _ _ _ report_checked Hn) as H.
  unfold report_ok in H. cbn zeta in H.
  rewrite !andb_true_iff, !Z.leb_le, Z.eqb_eq in H. lia.
Qed.

Lemma report_integer_fact (h : Z) :
  0 <= h < 256 -> times_100 (F32.of_int h) = 100 * h.
Proof.
  intros Hh. apply Z.eqb_eq. apply (all_below_spec _ _ _ report_integer_checked Hh).
Qed.

(** The wait loop and the capture loop print nothing. *)
Lemma captures_console (line : N -> bool) sensor junk w c w2 :
  captures line sensor junk w c w2 -> console w2 = console w.
Proof.
  intros (i & w1 & Hw & _ & Hr).
  apply wait_for_drop_frame in Hw as (_ & _ & _ & _ & Hc1).
  apply read_data_shove in Hr as (_ & _ & Hc2).
  destruct (handshake_frame line (pin sensor) w) as (_ & _ & _ & Hc0). congruence.
Qed.

(** The two lines a successful read prints. *)
Lemma dht_read_true_console (line : N -> bool) sensor output junk w reading w' c w2 :
  captures line sensor junk w c w2 ->
  dht_read line sensor output junk w = Ok (true, reading, w') ->
  console w'
  = msg_reading (times_100 (temperature reading)) (times_100 (humidity reading))
                (pin sensor)
    :: msg_frame (type sensor) (raw c 0) (raw c 1) (raw c 2) (raw c 3) (raw c 4)
                 ((raw c 0 + raw c 1 + raw c 2 + raw c 3) mod 256) (pin sensor)
    :: console w.
Proof.
  intros Hcap H. pose proof (captures_console _ _ _ _ _ _ Hcap) as Hcon.
  rewrite (dht_read_captures line sensor output junk w c w2 Hcap) in H.
  unfold conclude in H. destruct (39 <=? cap_j c); [|done].
  rewrite checksum_mod in H.
  destruct (byte_at (cap_data c) 4 =? _); [|done].
  injection H as <- <-. cbn [os_printf console temperature humidity].
  by rewrite Hcon.
Qed.

(** ** Further properties of the decoder *)

(** X1: one measurement returns the width of the pulse it sees.  If from
    the current poll on the line keeps [laststate] for [c < 1000] polls and
    then shows the other level at the next two polls, [counter] is [c],
    [laststate] flips, and [c + 2] polls and [c] microseconds have passed.
    If the line rests at [laststate] for 1000 polls, [counter] is 1000
    after 1001 polls and 1000 microseconds. *)
Theorem measurement_of_a_pulse (line : N -> bool) pin lvl (c : N) w :
  ((c < 1000)%N -> pulse line (polls w) lvl c ->
   measure line pin (Z.b2z lvl) w
   = Ok (Z.of_N c, Z.b2z (negb lvl), after_measure c w))
  /\ (rests line (polls w) lvl ->
      exists ls' w', measure line pin (Z.b2z lvl) w = Ok (STALL, ls', w')
        /\ polls w' = (polls w + 1001)%N
        /\ elapsed_us w' = elapsed_us w + 1000).
Proof.
  split.
  - apply measure_pulse.
  - apply measure_rests.
Qed.

Lemma measurement_of_a_pulse_witness :
  pulse line_good 60 true 10
  /\ measure line_good 2 1 (mkWorld 60 0 [] []) = Ok (10, 0, mkWorld 72 10 [] [])
  /\ rests line_stuck_high 0 true
  /\ exists ls' w', measure line_stuck_high 2 1 power_on = Ok (STALL, ls', w')
       /\ polls w' = 1001%N /\ elapsed_us w' = 1000.
Proof.
  assert (pulse line_good 60 true 10) as Hp.
  { split; [|split; reflexivity]. apply holds_spec. reflexivity. }
  assert (rests line_stuck_high 0 true) as Hr by (intros k Hk; reflexivity).
  split; [exact Hp|]. split.
  - apply (proj1 (measurement_of_a_pulse line_good 2 true 10 (mkWorld 60 0 [] []))).
    + reflexivity.
    + exact Hp.
  - split; [exact Hr|].
    apply (proj2 (measurement_of_a_pulse line_stuck_high 2 true 0 power_on)).
    exact Hr.
Defined.

(** X2: decoding a pulse train.  If the line is low at the first poll after
    the handshake and then shows pulses of the widths [cs] (the first one
    high) before it rests, with no more than 1604 of them, the capture ends
    with one bit for each of the widths number 4, 6, 8, ..., the bit being 1
    when the width exceeds 20; [j] is their number, the frame bytes are
    these bits most significant first, and [dht_read] returns what the
    last part of the function makes of them. *)
Theorem pulse_train_decoded (line : N -> bool) sensor output junk w (cs : list N) :
  line (polls (handshake (pin sensor) w)) = false ->
  train line (polls (handshake (pin sensor) w) + 1) true cs ->
  (length cs <= 1604)%nat ->
  let bits := bit_of <$> data_pulses 0 (Z.of_N <$> cs) in
  exists c w2,
    dht_read line sensor output junk w
      = Ok (conclude sensor output (cap_j c) (cap_data c) w2)
    /\ cap_j c = Z.of_nat (length bits)
    /\ (forall p : nat,
          bits !! p = (fun x => 20 <? Z.of_N x) <$> cs !! (4 + 2 * p)%nat)
    /\ (forall k, (k < 5)%nat -> cap_data c !! k = Some (msb_first (octet k bits))).
Proof.
  intros Hlow Htrain Hlen bits.
  destruct (train_captures line sensor junk w cs Hlow Htrain Hlen)
    as (c & w2 & Hcap & Hj & Hp).
  exists c, w2. split; [by apply dht_read_captures|]. split; [done|]. split; [|done].
  intros p. unfold bits.
  rewrite !list_lookup_fmap, data_pulses_lookup, list_lookup_fmap by lia.
  change (next_stored 0) with 4%nat. by destruct (cs !! (4 + 2 * p)%nat).
Qed.

(** The widths a simulated line shows after the handshake on GPIO 2. *)
Ltac widths_of line :=
  exact (Z.to_N <$> pulse_widths line (Z.to_nat DHT_MAXTIMINGS) 2 1
                      (after_wait 0 (handshake 2 power_on))).

Lemma pulse_train_decoded_witness :
  exists (cs : list N) c w2,
    train line_good 1 true cs
    /\ length cs = 84%nat
    /\ dht_read line_good dht22_on_2 no_reading stale power_on
       = Ok (conclude dht22_on_2 no_reading (cap_j c) (cap_data c) w2)
    /\ cap_j c = 40
    /\ take 5 (cap_data c) = [2; 26; 1; 5; 34].
Proof.
  pose (cs := ltac:(widths_of line_good) : list N).
  assert (train line_good 1 true cs) as Ht by (apply trainb_train; simulate).
  assert (length cs = 84%nat) as Hl by simulate.
  destruct (pulse_train_decoded line_good dht22_on_2 no_reading stale power_on cs)
    as (c & w2 & Hread & Hj & _ & Hp).
  - reflexivity.
  - exact Ht.
  - rewrite Hl. apply Nat.leb_le. reflexivity.
  - exists cs, c, w2. split; [exact Ht|]. split; [exact Hl|]. split; [exact Hread|].
    split.
    + rewrite Hj. simulate.
    + apply list_eq. intros k. rewrite lookup_take.
      destruct (decide (k < 5)%nat) as [Hk|Hk].
      * rewrite (Hp k Hk).
        do 5 (destruct k as [|k]; [simulate|]). exfalso. clear -Hk. lia.
      * symmetry. apply lookup_ge_None. cbn. clear -Hk. lia.
Defined.

(** X3: a frame sent is the frame read.  If the bits of the pulse train
    are those of five bytes [b0 .. b4], most significant bit first,
    [dht_read] returns what lines 119-139 make of these five bytes with
    [j = 40]: [true] exactly when [b4] is the sum of the others mod 256. *)
Theorem sent_frame_is_read (line : N -> bool) sensor output junk w (cs : list N)
    (b0 b1 b2 b3 b4 : Z) :
  line (polls (handshake (pin sensor) w)) = false ->
  train line (polls (handshake (pin sensor) w) + 1) true cs ->
  0 <= b0 < 256 -> 0 <= b1 < 256 -> 0 <= b2 < 256 -> 0 <= b3 < 256 ->
  0 <= b4 < 256 ->
  bit_of <$> data_pulses 0 (Z.of_N <$> cs) = frame_bits [b0; b1; b2; b3; b4] ->
  exists flag reading w',
    dht_read line sensor output junk w = Ok (flag, reading, w')
    /\ (exists w2, (flag, reading, w')
                   = conclude sensor output 40 [b0; b1; b2; b3; b4] w2)
    /\ (flag = true <-> b4 = (b0 + b1 + b2 + b3) mod 256).
Proof.
  intros Hlow Htrain H0 H1 H2 H3 H4 Hbits.
  assert (length cs <= 1604)%nat as Hlen.
  { rewrite <- (length_fmap Z.of_N). apply data_pulses_short.
    rewrite <- (length_fmap bit_of), Hbits. cbn. lia. }
  destruct (train_captures line sensor junk w cs Hlow Htrain Hlen)
    as (c & w2 & Hcap & Hj & Hp).
  rewrite Hbits in Hj, Hp. change (Z.of_nat (length _)) with 40 in Hj.
  rewrite (dht_read_captures _ _ _ _ _ _ _ Hcap), Hj.
  rewrite (conclude_same sensor output 40 (cap_data c) [b0; b1; b2; b3; b4]).
  2:{ intros k Hk. rewrite (Hp k Hk).
      do 5 (destruct k as [|k];
            [cbn [lookup list_lookup]; f_equal; by apply msb_first_byte_bits|]).
      lia. }
  destruct (conclude sensor output 40 [b0; b1; b2; b3; b4] w2)
    as [[flag reading] w'] eqn:Hc.
  exists flag, reading, w'. split; [done|]. split; [by exists w2|].
  unfold conclude in Hc. cbn [Z.leb Z.compare Pos.compare Pos.compare_cont] in Hc.
  rewrite checksum_mod in Hc.
  change (byte_at [b0; b1; b2; b3; b4] 0) with b0 in Hc.
  change (byte_at [b0; b1; b2; b3; b4] 1) with b1 in Hc.
  change (byte_at [b0; b1; b2; b3; b4] 2) with b2 in Hc.
  change (byte_at [b0; b1; b2; b3; b4] 3) with b3 in Hc.
  change (byte_at [b0; b1; b2; b3; b4] 4) with b4 in Hc.
  destruct (b4 =? (b0 + b1 + b2 + b3) mod 256) eqn:E;
    injection Hc as <- _ _; [apply Z.eqb_eq in E|apply Z.eqb_neq in E]; done.
Qed.

Lemma sent_frame_is_read_witness :
  exists (cs : list N) flag reading w',
    train line_negative 1 true cs
    /\ bit_of <$> data_pulses 0 (Z.of_N <$> cs) = frame_bits [1; 144; 128; 10; 27]
    /\ dht_read line_negative dht22_on_2 no_reading stale power_on
       = Ok (flag, reading, w')
    /\ (flag = true <-> 27 = (1 + 144 + 128 + 10) mod 256).
Proof.
  pose (cs := ltac:(widths_of line_negative) : list N).
  assert (train line_negative 1 true cs) as Ht by (apply trainb_train; simulate).
  assert (bit_of <$> data_pulses 0 (Z.of_N <$> cs) = frame_bits [1; 144; 128; 10; 27])
    as Hb by simulate.
  destruct (sent_frame_is_read line_negative dht22_on_2 no_reading stale power_on cs
              1 144 128 10 27) as (flag & reading & w' & Hread & _ & Hflag);
    [reflexivity|exact Ht|lia|lia|lia|lia|lia|exact Hb|].
  exists cs, flag, reading, w'. split; [exact Ht|]. split; [exact Hb|].
  split; [exact Hread|exact Hflag].
Defined.

(** X4: when the capture loop overruns [data].  Once the wait loop has
    seen the line drop, [dht_read] returns if the capture completes at most
    1604 transitions before a measurement stalls, and otherwise writes to
    [data[100]], one word past the array: 1605 transitions store 801
    bits. *)
Theorem overrun_beyond_1604_transitions (line : N -> bool) sensor output junk w i w1 :
  wait_for_drop line (S (Z.to_nat DHT_MAXCOUNT)) (pin sensor) 0
                (handshake (pin sensor) w) = Ok (i, w1) ->
  i <> DHT_MAXCOUNT ->
  let widths := pulse_widths line (Z.to_nat DHT_MAXTIMINGS) (pin sensor) 1 w1 in
  ((length widths <= 1604)%nat ->
   exists flag output' w', dht_read line sensor output junk w = Ok (flag, output', w'))
  /\ ((1604 < length widths)%nat ->
      dht_read line sensor output junk w = Fault (OutOfBounds 100)).
Proof.
  intros Hw Hi widths. unfold dht_read. rewrite Hw. cbn [rbind].
  apply Z.eqb_neq in Hi. rewrite Hi. unfold sample.
  destruct (read_data_room line (S (Z.to_nat DHT_MAXTIMINGS)) (pin sensor) 0 0 0 1
              (initial_data junk) w1) as [Hok Hfault];
    [lia|lia|apply initial_data_length|].
  rewrite Z.sub_0_r in Hok, Hfault. fold widths in Hok, Hfault.
  pose proof (data_pulses_overflow widths) as Ho. split; intros Hlen.
  - destruct Hok as (c & w2 & ->); [lia|]. cbn [rbind].
    destruct (conclude sensor output (cap_j c) (cap_data c) w2) as [[flag o] w'].
    eauto.
  - rewrite Hfault by lia. reflexivity.
Qed.

Lemma overrun_beyond_1604_transitions_witness :
  (exists flag output' w',
     dht_read line_good dht22_on_2 no_reading stale power_on = Ok (flag, output', w'))
  /\ dht_read line_square dht22_on_2 no_reading stale power_on
     = Fault (OutOfBounds 100).
Proof.
  assert (wait_for_drop line_good (S (Z.to_nat DHT_MAXCOUNT)) (pin dht22_on_2) 0
            (handshake (pin dht22_on_2) power_on)
          = Ok (0, after_wait 0 (handshake 2 power_on))) as Hgood by simulate.
  assert (wait_for_drop line_square (S (Z.to_nat DHT_MAXCOUNT)) (pin dht22_on_2) 0
            (handshake (pin dht22_on_2) power_on)
          = Ok (0, after_wait 0 (handshake 2 power_on))) as Hsquare by simulate.
  assert (0 <> DHT_MAXCOUNT) as Hne by discriminate.
  split.
  - apply (proj1 (overrun_beyond_1604_transitions line_good dht22_on_2 no_reading
                    stale power_on 0 _ Hgood Hne)).
    apply Nat.leb_le. simulate.
  - apply (proj2 (overrun_beyond_1604_transitions line_square dht22_on_2 no_reading
                    stale power_on 0 _ Hsquare Hne)).
    apply Nat.ltb_lt. simulate.
Defined.

(** X5: the words the stack held under [data] never show.  Whatever they
    are, [dht_read] gives the same flag, the same reading, the same world
    and the same fault. *)
Theorem stale_stack_never_shows (line : N -> bool) sensor output junk1 junk2 w :
  dht_read line sensor output junk1 w = dht_read line sensor output junk2 w.
Proof.
  unfold dht_read.
  destruct (wait_for_drop line (S (Z.to_nat DHT_MAXCOUNT)) (pin sensor) 0
              (handshake (pin sensor) w)) as [[i w1]|]; cbn [rbind]; [|reflexivity].
  destruct (i =? DHT_MAXCOUNT); [reflexivity|]. unfold sample.
  pose proof (read_data_same line (S (Z.to_nat DHT_MAXTIMINGS)) (pin sensor) 0 0 0 1
                (initial_data junk1) (initial_data junk2) w1 ltac:(lia)
                (initial_data_same junk1 junk2)) as Hsame.
  destruct (read_data line (S (Z.to_nat DHT_MAXTIMINGS)) (pin sensor) 0 0 0 1
              (initial_data junk1) w1) as [[c1 v1]|e1],
           (read_data line (S (Z.to_nat DHT_MAXTIMINGS)) (pin sensor) 0 0 0 1
              (initial_data junk2) w1) as [[c2 v2]|e2];
    cbn [rbind]; cbn [same_capture] in Hsame; try contradiction.
  - destruct Hsame as (_ & <- & _ & _ & [_ Hd] & <-).
    f_equal. by apply conclude_same.
  - by rewrite Hsame.
Qed.

(** X6: a call that returns has blocked for a bounded time.  It has spent
    at least the 270040 microseconds of the handshake and at most
    [MAX_BLOCKING_US] (10302040) in [os_delay_us], and has read the pin at
    least once and at most [MAX_POLLS] (10052001) times. *)
Theorem call_is_bounded (line : N -> bool) sensor output junk w flag output' w' :
  dht_read line sensor output junk w = Ok (flag, output', w') ->
  elapsed_us w + 270040 <= elapsed_us w' <= elapsed_us w + 10302040
  /\ Z.of_N (polls w) < Z.of_N (polls w') <= Z.of_N (polls w) + 10052001.
Proof.
  intros H. apply dht_read_frame in H as (He & Hp & _). done.
Qed.

Lemma call_is_bounded_witness :
  exists flag output' w',
    dht_read line_good dht22_on_2 no_reading stale power_on = Ok (flag, output', w')
    /\ 0 + 270040 <= elapsed_us w' <= 0 + 10302040
    /\ Z.of_N 0 < Z.of_N (polls w') <= Z.of_N 0 + 10052001.
Proof.
  assert (exists flag output' w',
            dht_read line_good dht22_on_2 no_reading stale power_on
            = Ok (flag, output', w')) as (flag & output' & w' & Hread).
  { eexists _, _, _. simulate. }
  exists flag, output', w'. split; [exact Hread|].
  exact (call_is_bounded line_good dht22_on_2 no_reading stale power_on
           flag output' w' Hread).
Defined.

(** X7: a call that returns has driven the pin in the handshake only:
    high at the start, low 250 ms later, high 20 ms after that, released
    40 microseconds later, all on the pin of the sensor, and nothing
    after the release.  It has printed one or two lines and kept the
    lines printed before. *)
Theorem pin_driven_in_handshake_only (line : N -> bool) sensor output junk w
    flag output' w' :
  dht_read line sensor output junk w = Ok (flag, output', w') ->
  gpio_trace w'
  = [(elapsed_us w + 270040, DisOutput (pin sensor));
     (elapsed_us w + 270000, OutputSet (pin sensor) 1);
     (elapsed_us w + 250000, OutputSet (pin sensor) 0);
     (elapsed_us w, OutputSet (pin sensor) 1)] ++ gpio_trace w
  /\ exists lines, console w' = lines ++ console w /\ (0 < length lines <= 2)%nat.
Proof.
  intros H. apply dht_read_frame in H as (_ & _ & Hg & Hc). done.
Qed.

Lemma pin_driven_in_handshake_only_witness :
  exists flag output' w',
    dht_read line_stuck_high dht11_on_2 no_reading stale power_on
    = Ok (flag, output', w')
    /\ gpio_trace w'
       = [(0 + 270040, DisOutput 2); (0 + 270000, OutputSet 2 1);
          (0 + 250000, OutputSet 2 0); (0, OutputSet 2 1)] ++ [].
Proof.
  assert (exists flag output' w',
            dht_read line_stuck_high dht11_on_2 no_reading stale power_on
            = Ok (flag, output', w')) as (flag & output' & w' & Hread).
  { eexists _, _, _. simulate. }
  exists flag, output', w'. split; [exact Hread|].
  exact (proj1 (pin_driven_in_handshake_only line_stuck_high dht11_on_2 no_reading
                  stale power_on flag output' w' Hread)).
Defined.

(** X8: a reading is returned only for a frame that passed the checksum.
    Whenever [dht_read] returns [true], the wait loop saw the line drop,
    the capture collected at least 39 bits, the five bytes are within
    0..255 with the fifth the sum of the others mod 256, and the reading
    is the scaling of these bytes. *)
Theorem reading_only_after_checksum (line : N -> bool) sensor output junk w
    reading w' :
  dht_read line sensor output junk w = Ok (true, reading, w') ->
  exists c w2,
    captures line sensor junk w c w2
    /\ 39 <= cap_j c
    /\ (forall k, (k < 5)%nat -> 0 <= raw c k < 256)
    /\ raw c 4 = (raw c 0 + raw c 1 + raw c 2 + raw c 3) mod 256
    /\ reading = mkOutput (scale_temperature (type sensor) (cap_data c))
                          (scale_humidity (type sensor) (cap_data c)).
Proof.
  intros H. apply dht_read_true_inv in H as (c & w2 & Hcap & Hj & Hsum & Hr).
  exists c, w2. split; [done|]. split; [done|]. split; [|done].
  intros k Hk. by apply (captures_bytes line sensor junk w c w2).
Qed.

Lemma reading_only_after_checksum_witness :
  exists reading w' c w2,
    dht_read line_good dht22_on_2 no_reading stale power_on = Ok (true, reading, w')
    /\ captures line_good dht22_on_2 stale power_on c w2
    /\ 39 <= cap_j c
    /\ raw c 4 = (raw c 0 + raw c 1 + raw c 2 + raw c 3) mod 256.
Proof.
  assert (exists reading w',
            dht_read line_good dht22_on_2 no_reading stale power_on
            = Ok (true, reading, w')) as (reading & w' & Hread).
  { eexists _, _. simulate. }
  destruct (reading_only_after_checksum line_good dht22_on_2 no_reading stale
              power_on reading w' Hread) as (c & w2 & Hcap & Hj & _ & Hsum & _).
  exists reading, w', c, w2. split; [exact Hread|]. split; [exact Hcap|].
  split; [exact Hj|exact Hsum].
Defined.

(** X9: a capture of exactly 39 bits leaves [data[4]] one bit short: it
    holds seven bits and is below 128, so [dht_read] can return [true]
    only when the sum of the first four bytes mod 256 is below 128. *)
Theorem short_frame_checksum (line : N -> bool) sensor output junk w c w2 :
  captures line sensor junk w c w2 ->
  cap_j c = 39 ->
  0 <= raw c 4 < 128
  /\ (forall reading w',
        dht_read line sensor output junk w = Ok (true, reading, w') ->
        (raw c 0 + raw c 1 + raw c 2 + raw c 3) mod 256 < 128).
Proof.
  intros Hcap Hj.
  assert (0 <= raw c 4 < 128) as Hr4.
  { destruct Hcap as (i & w1 & _ & _ & Hr).
    apply read_data_packed in Hr as (Hlen & Hp & _).
    unfold raw, byte_at. rewrite (Hp 4%nat) by lia. cbn [default].
    pose proof (msb_first_range (octet 4 (decoded_bits line (pin sensor) w1))) as Hm.
    assert (length (octet 4 (decoded_bits line (pin sensor) w1)) = 7%nat) as Ho.
    { unfold octet. rewrite length_take, length_drop. lia. }
    rewrite Ho in Hm. change (2 ^ Z.of_nat 7) with 128 in Hm. done. }
  split; [done|]. intros reading w' Hread.
  rewrite (dht_read_captures _ _ _ _ _ _ _ Hcap) in Hread.
  unfold conclude in Hread. rewrite Hj in Hread.
  cbn [Z.leb Z.compare Pos.compare Pos.compare_cont] in Hread.
  rewrite checksum_mod in Hread.
  fold (raw c 0) (raw c 1) (raw c 2) (raw c 3) (raw c 4) in Hread.
  destruct (raw c 4 =? _) eqn:E; [|done]. apply Z.eqb_eq in E. lia.
Qed.

Lemma short_frame_checksum_witness :
  exists c w2,
    captures line_39_bits dht11_on_2 stale power_on c w2
    /\ cap_j c = 39
    /\ 0 <= raw c 4 < 128.
Proof.
  assert (exists c w2, captures line_39_bits dht11_on_2 stale power_on c w2
                       /\ cap_j c = 39) as (c & w2 & Hcap & Hj).
  { eexists _, _. split; [simulate_capture|reflexivity]. }
  exists c, w2. split; [exact Hcap|]. split; [exact Hj|].
  exact (proj1 (short_frame_checksum line_39_bits dht11_on_2 no_reading stale
                  power_on c w2 Hcap Hj)).
Defined.

(** X10: bits after the fortieth are stored but never reach the frame.
    On a line that answers the handshake and shows pulses of the widths
    [cs], every bit [p >= 40] is stored in [data[p / 8]], a word behind
    the five of the frame; the five frame bytes are spelled by the first
    forty bits, and [dht_read] returns what lines 119-139 make of [j] and
    these five bytes alone. *)
Theorem bits_after_40_ignored (line : N -> bool) sensor output junk w (cs : list N) :
  line (polls (handshake (pin sensor) w)) = false ->
  train line (polls (handshake (pin sensor) w) + 1) true cs ->
  (length cs <= 1604)%nat ->
  let bits := bit_of <$> data_pulses 0 (Z.of_N <$> cs) in
  exists c w2,
    captures line sensor junk w c w2
    /\ cap_j c = Z.of_nat (length bits)
    /\ (forall (p : nat) (b : bool), (40 <= p)%nat -> bits !! p = Some b ->
          (5 <= p / 8 < 100)%nat
          /\ 0 <= slot (cap_j c) p <= 7
          /\ exists word, cap_data c !! (p / 8)%nat = Some word
                          /\ Z.testbit word (slot (cap_j c) p) = b)
    /\ (forall k, (k < 5)%nat -> cap_data c !! k = frame_of bits !! k)
    /\ dht_read line sensor output junk w
       = Ok (conclude sensor output (cap_j c) (frame_of bits) w2).
Proof.
  intros Hlow Htrain Hlen bits.
  destruct (train_captures_stored line sensor junk w cs Hlow Htrain Hlen)
    as (c & w2 & Hcap & Hj & Hp & Hst & Hl).
  fold bits in Hj, Hp, Hst.
  assert (forall k, (k < 5)%nat -> cap_data c !! k = frame_of bits !! k) as Hframe.
  { intros k Hk. rewrite (Hp k Hk).
    assert (frame_of bits !! k = Some (msb_first (octet k (take 40 bits)))) as ->
      by (do 5 (destruct k as [|k]; [reflexivity|]); lia).
    do 2 f_equal. unfold octet. rewrite skipn_firstn_comm, take_take. f_equal. lia. }
  exists c, w2. split; [done|]. split; [done|]. split; [|split; [done|]].
  - intros p b Hp40 Hb.
    destruct (Hst p b Hb) as (word & Hword & Hbit). rewrite <- Hj in Hbit.
    split; [|split; [|by exists word]].
    + apply lookup_lt_Some in Hword. rewrite Hl in Hword. split; [|done].
      apply (Nat.Div0.div_le_mono _ _ 8) in Hp40.
      change (40 / 8)%nat with 5%nat in Hp40. done.
    + apply slot_range. rewrite Hj. apply lookup_lt_Some in Hb. lia.
  - rewrite (dht_read_captures _ _ _ _ _ _ _ Hcap). f_equal.
    apply conclude_same. done.
Qed.

Lemma bits_after_40_ignored_witness :
  exists (cs : list N) c w2,
    train line_48_bits 1 true cs
    /\ captures line_48_bits dht22_on_2 stale power_on c w2
    /\ cap_j c = 48
    /\ (exists word, cap_data c !! 5%nat = Some word
                     /\ Z.testbit word (slot (cap_j c) 40) = true)
    /\ dht_read line_48_bits dht22_on_2 no_reading stale power_on
       = Ok (conclude dht22_on_2 no_reading (cap_j c) [2; 26; 1; 5; 34] w2).
Proof.
  pose (cs := ltac:(widths_of line_48_bits) : list N).
  assert (train line_48_bits 1 true cs) as Ht by (apply trainb_train; simulate).
  assert (length (bit_of <$> data_pulses 0 (Z.of_N <$> cs)) = 48%nat) as Hl by simulate.
  assert ((bit_of <$> data_pulses 0 (Z.of_N <$> cs)) !! 40%nat = Some true) as H40
    by simulate.
  assert (frame_of (bit_of <$> data_pulses 0 (Z.of_N <$> cs)) = [2; 26; 1; 5; 34]) as Hf
    by simulate.
  destruct (bits_after_40_ignored line_48_bits dht22_on_2 no_reading stale power_on cs)
    as (c & w2 & Hcap & Hj & Hlate & _ & Hread).
  - reflexivity.
  - exact Ht.
  - apply Nat.leb_le. simulate.
  - exists cs, c, w2. split; [exact Ht|]. split; [exact Hcap|].
    rewrite Hl in Hj. split; [exact Hj|]. split.
    + destruct (Hlate 40%nat true) as (_ & _ & word & Hw & Hb);
        [apply Nat.leb_le; reflexivity|exact H40|].
      exists word. split; [exact Hw|exact Hb].
    + rewrite Hread, Hf. reflexivity.
Defined.
(** ** Further properties of [dht_float2String] *)

(** X11: the string for the value [n / 10], [n] of sixteen bits (every
    DHT22 humidity and every temperature above zero).  It is the integer
    part [n / 10], a point and a second number [k] that is ten times the
    last digit of [n] or one less, printed without padding: a [k] below
    ten takes one digit, so that 2.1 comes out as "2.9". *)
Theorem format_of_tenths :
  (forall n, 0 <= n < 65536 ->
     exists k,
       dht_float2String (tenths n) = dec (n / 10) +:+ "." +:+ dec k
       /\ 0 <= k /\ 10 * (n mod 10) - 1 <= k <= 10 * (n mod 10))
  /\ dht_float2String (tenths 21) = "2.9".
Proof.
  split; [|simulate].
  intros n Hn. destruct (format_tenths_facts n Hn) as (Hq & Hk0 & Hk & _).
  exists (hundredths (tenths n)). split; [|done].
  unfold dht_float2String, os_sprintf_d_dot_d. by rewrite Hq.
Qed.

Lemma format_of_tenths_witness :
  exists k,
    dht_float2String (tenths 538) = dec (538 / 10) +:+ "." +:+ dec k
    /\ 0 <= k /\ 10 * (538 mod 10) - 1 <= k <= 10 * (538 mod 10).
Proof.
  apply (proj1 format_of_tenths 538). split; [discriminate|reflexivity].
Defined.

(** X12: the string for the value [- n / 10] (a DHT22 temperature below
    zero).  When the last digit of [n] is not 0, both numbers of the format
    carry their own sign: the string is the integer part, then ".-" and
    [k] as before, and for a value above -1 the integer part is "0", the
    only minus sign being the one after the point.  When the last digit is
    0 the string is the integer part and ".0". *)
Theorem format_of_negative_tenths (n : Z) :
  0 < n < 32768 ->
  (n mod 10 <> 0 ->
   exists k,
     dht_float2String (SFopp (tenths n)) = dec (- (n / 10)) +:+ ".-" +:+ dec k
     /\ 0 < k /\ 10 * (n mod 10) - 1 <= k <= 10 * (n mod 10)
     /\ (n < 10 -> dht_float2String (SFopp (tenths n)) = "0.-" +:+ dec k))
  /\ (n mod 10 = 0 ->
      dht_float2String (SFopp (tenths n)) = dec (- (n / 10)) +:+ ".0").
Proof.
  intros Hn. destruct (format_negative_facts n ltac:(lia)) as (Hq & Hk0 & Hk & _).
  pose proof (Z.mod_pos_bound n 10 ltac:(lia)) as Hd.
  unfold dht_float2String, os_sprintf_d_dot_d. rewrite Hq. split.
  - intros Hnz. set (h := hundredths (SFopp (tenths n))) in *.
    assert (dec h = "-" +:+ dec (- h)) as Hdec.
    { rewrite <- dec_negative by lia. f_equal. lia. }
    exists (- h). rewrite Hdec.
    split; [reflexivity|]. split; [lia|]. split; [lia|].
    intros Hsmall. rewrite Z.div_small by lia. reflexivity.
  - intros Hz. assert (hundredths (SFopp (tenths n)) = 0) as -> by lia. reflexivity.
Qed.

Lemma format_of_negative_tenths_witness :
  (exists k,
     dht_float2String (SFopp (tenths 5)) = dec (- (5 / 10)) +:+ ".-" +:+ dec k
     /\ 0 < k /\ 10 * (5 mod 10) - 1 <= k <= 10 * (5 mod 10)
     /\ (5 < 10 -> dht_float2String (SFopp (tenths 5)) = "0.-" +:+ dec k))
  /\ dht_float2String (SFopp (tenths 20)) = dec (- (20 / 10)) +:+ ".0".
Proof.
  split.
  - apply (proj1 (format_of_negative_tenths 5 ltac:(split; reflexivity))).
    discriminate.
  - apply (proj2 (format_of_negative_tenths 20 ltac:(split; reflexivity))).
    reflexivity.
Defined.

(** X13: the strings of a DHT11 reading.  After a successful read of a
    DHT11, formatting the humidity gives the byte [raw[0]] in decimal
    followed by ".0", and formatting the temperature gives [raw[2]]
    followed by ".0". *)
Theorem format_of_dht11_reading (line : N -> bool) sensor output junk w reading w' :
  dht_read line sensor output junk w = Ok (true, reading, w') ->
  type sensor = DHT11 ->
  exists c w2,
    captures line sensor junk w c w2
    /\ dht_float2String (humidity reading) = dec (raw c 0) +:+ ".0"
    /\ dht_float2String (temperature reading) = dec (raw c 2) +:+ ".0".
Proof.
  intros H Hty. apply dht_read_true_inv in H as (c & w2 & Hcap & _ & _ & ->).
  exists c, w2. split; [done|]. rewrite Hty. cbn [humidity temperature].
  unfold scale_humidity, scale_temperature. cbn [DHTType_eqb].
  split; apply format_integer_fact;
    apply (captures_bytes line sensor junk w c w2); (done || lia).
Qed.

Lemma format_of_dht11_reading_witness :
  exists reading w' c w2,
    dht_read line_dht11 dht11_on_2 no_reading stale power_on = Ok (true, reading, w')
    /\ captures line_dht11 dht11_on_2 stale power_on c w2
    /\ dht_float2String (humidity reading) = dec (raw c 0) +:+ ".0"
    /\ dht_float2String (temperature reading) = dec (raw c 2) +:+ ".0".
Proof.
  assert (exists reading w',
            dht_read line_dht11 dht11_on_2 no_reading stale power_on
            = Ok (true, reading, w')) as (reading & w' & Hread).
  { eexists _, _. simulate. }
  destruct (format_of_dht11_reading line_dht11 dht11_on_2 no_reading stale power_on
              reading w' Hread eq_refl) as (c & w2 & Hcap & Hh & Ht).
  exists reading, w', c, w2. split; [exact Hread|]. split; [exact Hcap|].
  split; [exact Hh|exact Ht].
Defined.

(** X14: a buffer of ten bytes is enough for a reading.  After a
    successful read of either sensor type, formatting the humidity writes
    at most 7 characters and formatting the temperature at most 9, before
    the terminating NUL. *)
Theorem formatted_reading_fits (line : N -> bool) sensor output junk w reading w' :
  dht_read line sensor output junk w = Ok (true, reading, w') ->
  (String.length (dht_float2String (humidity reading)) <= 7)%nat
  /\ (String.length (dht_float2String (temperature reading)) <= 9)%nat.
Proof.
  intros H. apply dht_read_true_inv in H as (c & w2 & Hcap & _ & _ & ->).
  pose proof (captures_bytes line sensor junk w c w2 0 Hcap ltac:(lia)) as R0.
  pose proof (captures_bytes line sensor junk w c w2 1 Hcap ltac:(lia)) as R1.
  pose proof (captures_bytes line sensor junk w c w2 2 Hcap ltac:(lia)) as R2.
  pose proof (captures_bytes line sensor junk w c w2 3 Hcap ltac:(lia)) as R3.
  cbn [humidity temperature]. destruct (type sensor).
  - unfold scale_humidity, scale_temperature. cbn [DHTType_eqb].
    destruct (format_integer_fact _ R0) as [_ H0].
    destruct (format_integer_fact _ R2) as [_ H2]. lia.
  - rewrite scale_humidity_dht22, scale_temperature_dht22 by done. cbn zeta.
    pose proof (land_0x7f_range (byte_at (cap_data c) 2)) as Rhi.
    split.
    + apply format_tenths_facts. lia.
    + destruct (Z.land (byte_at (cap_data c) 2) 128 =? 0).
      * destruct (format_tenths_facts
                    (Z.land (byte_at (cap_data c) 2) 127 * 256 + byte_at (cap_data c) 3))
          as (_ & _ & _ & Hl); lia.
      * apply format_negative_facts. lia.
Qed.

Lemma formatted_reading_fits_witness :
  exists reading w',
    dht_read line_negative dht22_on_2 no_reading stale power_on = Ok (true, reading, w')
    /\ (String.length (dht_float2String (humidity reading)) <= 7)%nat
    /\ (String.length (dht_float2String (temperature reading)) <= 9)%nat.
Proof.
  assert (exists reading w',
            dht_read line_negative dht22_on_2 no_reading stale power_on
            = Ok (true, reading, w')) as (reading & w' & Hread).
  { eexists _, _. simulate. }
  exists reading, w'. split; [exact Hread|].
  exact (formatted_reading_fits line_negative dht22_on_2 no_reading stale power_on
           reading w' Hread).
Defined.

(** ** Counters of the capture *)

Lemma data_pulses_count (ws : list Z) :
  let bits := Z.of_nat (length (data_pulses 0 ws)) in
  let transitions := Z.of_nat (length ws) in
  (bits = 0 -> transitions <= 4)
  /\ (0 < bits -> 2 * bits + 3 <= transitions <= 2 * bits + 4).
Proof.
  cbn zeta.
  assert (forall p : nat, (p < length (data_pulses 0 ws))%nat
                          <-> (4 + 2 * p < length ws)%nat) as H.
  { intros p. rewrite <- !lookup_lt_is_Some, data_pulses_lookup by lia. done. }
  pose proof (H (length (data_pulses 0 ws))) as Hlast.
  split; [lia|]. intros Hpos.
  pose proof (H (length (data_pulses 0 ws) - 1)%nat) as Hprev. lia.
Qed.

(** X16: how the counters of the capture relate.  When the capture loop
    returns, [i] is the number of transitions it completed, at most 10000;
    [j] bits need [2j + 3] or [2j + 4] transitions (40 bits need 83), and
    no bit is stored before the fifth transition; [j] is at most 800 and
    [counter] at most 1000. *)
Theorem bits_and_transitions (line : N -> bool) pin junk w cap w' :
  read_data line (S (Z.to_nat DHT_MAXTIMINGS)) pin 0 0 0 1 (initial_data junk) w
    = Ok (cap, w') ->
  cap_i cap
  = Z.of_nat (length (pulse_widths line (Z.to_nat DHT_MAXTIMINGS) pin 1 w))
  /\ 0 <= cap_i cap <= 10000
  /\ 0 <= cap_j cap <= 800
  /\ (cap_j cap = 0 -> cap_i cap <= 4)
  /\ (0 < cap_j cap -> 2 * cap_j cap + 3 <= cap_i cap <= 2 * cap_j cap + 4)
  /\ 0 <= cap_counter cap <= 1000.
Proof.
  intros Hr.
  assert (0 <= 0 <= DHT_MAXTIMINGS) as Hi0 by (unfold DHT_MAXTIMINGS; lia).
  assert (0 <= 0 <= STALL) as Hc0 by (unfold STALL; lia).
  pose proof (read_data_bounds line _ _ _ _ _ _ _ _ _ _ Hi0 Hc0 Hr) as (Hi & _ & Hc).
  destruct (read_data_room line (S (Z.to_nat DHT_MAXTIMINGS)) pin 0 0 0 1
              (initial_data junk) w) as [_ Hfault];
    [lia|lia|apply initial_data_length|].
  pose proof (read_data_shove line _ _ _ _ _ _ _ _ _ _ Hr) as (_ & Hci & _).
  pose proof (read_data_packed line _ _ _ _ _ Hr) as (Hj & _).
  rewrite Z.sub_0_r in Hfault, Hci. unfold decoded_bits in Hj.
  rewrite length_fmap in Hj. cbn zeta in Hci.
  pose proof (data_pulses_count
                (pulse_widths line (Z.to_nat DHT_MAXTIMINGS) pin 1 w)) as [H0 H1].
  cbn zeta in H0, H1. unfold DHT_MAXTIMINGS, STALL in *.
  assert (cap_j cap <= 800) as Hj800.
  { destruct (decide (cap_j cap <= 800)) as [|Hbig]; [done|].
    rewrite Hfault in Hr by lia. discriminate. }
  repeat split; try lia.
Qed.

Lemma bits_and_transitions_witness :
  exists cap w',
    read_data line_good (S (Z.to_nat DHT_MAXTIMINGS)) 2 0 0 0 1 (initial_data stale)
              (after_wait 0 (handshake 2 power_on)) = Ok (cap, w')
    /\ 0 <= cap_i cap <= 10000
    /\ 0 <= cap_j cap <= 800
    /\ (0 < cap_j cap -> 2 * cap_j cap + 3 <= cap_i cap <= 2 * cap_j cap + 4).
Proof.
  assert (exists cap w',
            read_data line_good (S (Z.to_nat DHT_MAXTIMINGS)) 2 0 0 0 1
                      (initial_data stale) (after_wait 0 (handshake 2 power_on))
            = Ok (cap, w')) as (cap & w' & Hr).
  { eexists _, _. simulate. }
  destruct (bits_and_transitions line_good 2 stale _ cap w' Hr)
    as (_ & Hi & Hj & _ & Hrel & _).
  exists cap, w'. split; [exact Hr|]. split; [exact Hi|]. split; [exact Hj|exact Hrel].
Defined.

(** ** The lines printed after a reading *)

(** X17: what a successful read prints.  It adds two lines to the
    console: the frame with the checksum computed, and the reading times
    100 as integers.  For a DHT11 these are [100 * raw[0]] and
    [100 * raw[2]].  For a DHT22, with [n] the sixteen-bit word of the
    frame, the number is [10 n] or [10 n - 1] (the product is truncated
    after its rounding), with the minus sign when bit 7 of [raw[2]] is
    set. *)
Theorem report_of_reading (line : N -> bool) sensor output junk w reading w' :
  dht_read line sensor output junk w = Ok (true, reading, w') ->
  exists c w2 t h,
    captures line sensor junk w c w2
    /\ console w'
       = msg_reading t h (pin sensor)
         :: msg_frame (type sensor) (raw c 0) (raw c 1) (raw c 2) (raw c 3) (raw c 4)
                      (raw c 4) (pin sensor)
         :: console w
    /\ match type sensor with
       | DHT11 => h = 100 * raw c 0 /\ t = 100 * raw c 2
       | DHT22 =>
           let hn := raw c 0 * 256 + raw c 1 in
           let tn := Z.land (raw c 2) 0x7f * 256 + raw c 3 in
           10 * hn - 1 <= h <= 10 * hn
           /\ (if Z.land (raw c 2) 0x80 =? 0
               then 10 * tn - 1 <= t <= 10 * tn
               else - (10 * tn) <= t <= - (10 * tn - 1))
       end.
Proof.
  intros H.
  destruct (dht_read_true_inv _ _ _ _ _ _ _ H) as (c & w2 & Hcap & _ & Hsum & Hr).
  pose proof (dht_read_true_console _ _ _ _ _ _ _ _ _ Hcap H) as Hcon.
  rewrite <- Hsum in Hcon.
  pose proof (captures_bytes line sensor junk w c w2 0 Hcap ltac:(lia)) as R0.
  pose proof (captures_bytes line sensor junk w c w2 1 Hcap ltac:(lia)) as R1.
  pose proof (captures_bytes line sensor junk w c w2 2 Hcap ltac:(lia)) as R2.
  pose proof (captures_bytes line sensor junk w c w2 3 Hcap ltac:(lia)) as R3.
  exists c, w2, (times_100 (temperature reading)), (times_100 (humidity reading)).
  split; [done|]. split; [done|]. rewrite Hr. cbn [temperature humidity].
  unfold raw. destruct (type sensor).
  - unfold scale_humidity, scale_temperature. cbn [DHTType_eqb].
    by rewrite !report_integer_fact.
  - rewrite scale_humidity_dht22, scale_temperature_dht22 by done. cbn zeta.
    pose proof (land_0x7f_range (byte_at (cap_data c) 2)) as Rhi.
    split; [apply report_facts; lia|].
    destruct (report_facts (Z.land (byte_at (cap_data c) 2) 127 * 256
                            + byte_at (cap_data c) 3)) as [Hpos Hneg]; [lia|].
    destruct (Z.land (byte_at (cap_data c) 2) 128 =? 0); [done|].
    rewrite Hneg. lia.
Qed.

Lemma report_of_reading_witness :
  exists reading w' c w2 t h,
    dht_read line_negative dht22_on_2 no_reading stale power_on = Ok (true, reading, w')
    /\ captures line_negative dht22_on_2 stale power_on c w2
    /\ console w'
       = [msg_reading t h 2;
          msg_frame DHT22 (raw c 0) (raw c 1) (raw c 2) (raw c 3) (raw c 4) (raw c 4) 2].
Proof.
  assert (exists reading w',
            dht_read line_negative dht22_on_2 no_reading stale power_on
            = Ok (true, reading, w')) as (reading & w' & Hread).
  { eexists _, _. simulate. }
  destruct (report_of_reading line_negative dht22_on_2 no_reading stale power_on
              reading w' Hread) as (c & w2 & t & h & Hcap & Hcon & _).
  exists reading, w', c, w2, t, h. split; [exact Hread|]. split; [exact Hcap|].
  exact Hcon.
Defined.

